(** * Suite25519: signed and encrypted envelopes over Curve25519

    A shallow embedding of [src/suite25519.js].  The module is glue code
    around imported primitives (Ed25519, X25519, HKDF-SHA256, the [siv]
    cipher, RIPEMD-160, the CBOR codec and the secure random source).  The
    primitives are an interface here, class [Primitives]; the functions of
    the module are written against that interface exactly as the source
    calls it, and each theorem names the contracts of the primitives that
    it relies on as section hypotheses.

    Embedded: the ECIES core ([deriveAesKey], [eciesEncrypt],
    [eciesDecrypt]), the data classes with the key methods the public
    functions use ([publicKey], [id], [verify], [randomPrivateKey]) and the
    six exported functions.  The Base64 helpers and the convenience methods
    [PrivateKey.decrypt], [PrivateKey.sign] and [PublicKey.encrypt] take no
    part in the properties below and are left out.

    Effects of the source and how they are embedded:
    - [throw] / [try ... catch]: the [result] type, [throw] and [try_catch];
    - the secure random source: an abstract generator state threaded
      through the [world];
    - [console.error]: a log kept in the [world], which a thrown error does
      not roll back. *)

From Stdlib Require Import ZArith Strings.Byte Strings.Ascii.
From stdpp Require Import base gmap strings list.

#[local] Set Warnings "-register-all,-clear-no-such-hyp".

(** ** Byte sequences and JavaScript values *)

(** A [Uint8Array] is its sequence of bytes. *)
Abbreviation bytes := (list byte).

#[global] Instance byte_eq_decision : EqDecision byte := Byte.byte_eq_dec.

(** A JavaScript string is represented by its UTF-8 byte sequence (a Rocq
    [string] is a sequence of 8-bit characters), so that
    [new TextEncoder().encode(s)] is [String.list_byte_of_string s].
    Strings with lone surrogates have no representation. *)
Definition TextEncoder_encode (s : string) : bytes :=
  String.list_byte_of_string s.

(** The values the CBOR decoder can hand back.  Numbers are the integers;
    an object is a finite map from property names to values. *)
Inductive jsval :=
| JUndefined
| JNull
| JBool (b : bool)
| JNumber (z : Z)
| JString (s : string)
| JBytes (b : bytes)
| JArray (l : list jsval)
| JObject (o : gmap string jsval).

(** [x instanceof Uint8Array] *)
Definition is_bytes (v : jsval) : bool :=
  match v with JBytes _ => true | _ => false end.

Definition as_bytes (v : jsval) : option bytes :=
  match v with JBytes b => Some b | _ => None end.

(** [x === undefined] *)
Definition is_undefined (v : jsval) : bool :=
  match v with JUndefined => true | _ => false end.

(** Truthiness, as used by [!sig] and [if (P)]: a typed array, an array and
    an object are truthy whatever they hold. *)
Definition truthy (v : jsval) : bool :=
  match v with
  | JUndefined | JNull => false
  | JBool b => b
  | JNumber z => negb (z =? 0)%Z
  | JString s => negb (String.eqb s EmptyString)
  | JBytes _ | JArray _ | JObject _ => true
  end.

(** Property read [v.k] for the property names of the two envelopes
    ([sig], [m], [P], [C], [P_e], [N]), none of which is a built-in
    property of a primitive wrapper, of an array or of a typed array. *)
Definition get_prop (v : jsval) (k : string) : jsval :=
  match v with
  | JObject o => default JUndefined (o !! k)
  | _ => JUndefined
  end.

Arguments get_prop : simpl never.

(** ** Errors and results *)

(** A thrown value; the source only ever reads its [message]. *)
Inductive error := Error (msg : string).

(** [error?.message] *)
Definition error_message (e : error) : string := let 'Error m := e in m.

Inductive result (A : Type) :=
| Ok (a : A)
| Throw (e : error).
Arguments Ok {A} a.
Arguments Throw {A} e.

Definition is_ok {A} (r : result A) : bool :=
  match r with Ok _ => true | Throw _ => false end.

(** ** The imported primitives *)

Class Primitives := {
  (** state of the secure random source *)
  rng : Type;
  (** [randomBytes(n)] of [@noble/ciphers/webcrypto] *)
  randomBytes : nat -> rng -> result bytes * rng;
  (** [ed25519.utils.randomPrivateKey()], [x25519.utils.randomPrivateKey()] *)
  ed25519_randomPrivateKey : rng -> result bytes * rng;
  x25519_randomPrivateKey : rng -> result bytes * rng;
  (** [ed25519.getPublicKey(priv)] *)
  ed25519_getPublicKey : bytes -> result bytes;
  (** [ed25519.sign(msg, priv)] *)
  ed25519_sign : bytes -> bytes -> result bytes;
  (** [ed25519.verify(sig, msg, pub, { zip215: false })] *)
  ed25519_verify : bytes -> bytes -> bytes -> result bool;
  (** [x25519.getPublicKey(priv)], [x25519.getSharedSecret(priv, pub)] *)
  x25519_getPublicKey : bytes -> result bytes;
  x25519_getSharedSecret : bytes -> bytes -> result bytes;
  (** conversions from the signing to the key-agreement representation *)
  edwardsToMontgomeryPub : bytes -> result bytes;
  edwardsToMontgomeryPriv : bytes -> result bytes;
  (** [hkdf(sha256, ikm, salt, info, length)]; [None] is [salt = undefined] *)
  hkdf_sha256 : bytes -> option bytes -> bytes -> nat -> result bytes;
  (** [siv(key, nonce)] and the two methods of the object it returns *)
  cipher : Type;
  siv : bytes -> bytes -> result cipher;
  cipher_encrypt : cipher -> bytes -> result bytes;
  cipher_decrypt : cipher -> bytes -> result bytes;
  (** [ripemd160(data)] *)
  ripemd160 : bytes -> bytes;
  (** [encode(value)] and [decode(bytes)] of [cbor-x] *)
  cbor_encode : jsval -> result bytes;
  cbor_decode : bytes -> result jsval;
  (** the engine's [TypeError] for destructuring [undefined] or [null] *)
  destructure_error : jsval -> error;
}.

(** ** [bytesToHex] of [@noble/hashes/utils]

    Two lowercase hexadecimal digits per byte, most significant first. *)

Definition hex_digit (n : N) : Ascii.ascii :=
  match n with
  | 0 => "0" | 1 => "1" | 2 => "2" | 3 => "3" | 4 => "4" | 5 => "5"
  | 6 => "6" | 7 => "7" | 8 => "8" | 9 => "9" | 10 => "a" | 11 => "b"
  | 12 => "c" | 13 => "d" | 14 => "e" | _ => "f"
  end%N%char.

Definition byte_to_hex (b : byte) : string :=
  String (hex_digit (Byte.to_N b / 16))
    (String (hex_digit (Byte.to_N b mod 16)) EmptyString).

Fixpoint bytesToHex (b : bytes) : string :=
  match b with
  | [] => EmptyString
  | x :: rest => byte_to_hex x +:+ bytesToHex rest
  end.

(** Reading the rendering back, to show that it loses nothing. *)
Definition hex_value (c : Ascii.ascii) : N :=
  let n := Ascii.N_of_ascii c in
  if (n <=? 57)%N then (n - 48)%N else (n - 87)%N.

Fixpoint unhex (s : string) : bytes :=
  match s with
  | String hi (String lo rest) =>
      default x00 (Byte.of_N (16 * hex_value hi + hex_value lo)) :: unhex rest
  | _ => []
  end.

(** The characters [0-9a-f]. *)
Definition is_lower_hex (c : Ascii.ascii) : bool :=
  let n := Ascii.N_of_ascii c in
  ((48 <=? n) && (n <=? 57) || (97 <=? n) && (n <=? 102))%N.

Fixpoint all_lower_hex (s : string) : bool :=
  match s with
  | EmptyString => true
  | String c rest => is_lower_hex c && all_lower_hex rest
  end.

(** ** The world and the monad of the module's functions *)

(** One line written by [console.error(label, error)]. *)
Record log_line := LogLine { log_label : string; log_error : error }.

Record world `{Primitives} := World {
  entropy : rng;
  console : list log_line;
}.

Section Monad.
Context `{Primitives}.

(** A computation reads and updates the world and returns or throws. *)
Definition M (A : Type) : Type := world -> result A * world.

Definition ret {A} (a : A) : M A := fun w => (Ok a, w).

Definition throw {A} (e : error) : M A := fun w => (Throw e, w).

Definition bind {A B} (c : M A) (k : A -> M B) : M B :=
  fun w =>
    match c w with
    | (Ok a, w') => k a w'
    | (Throw e, w') => (Throw e, w')
    end.

(** [try { c } catch (error) { h error }] *)
Definition try_catch {A} (c : M A) (h : error -> M A) : M A :=
  fun w =>
    match c w with
    | (Ok a, w') => (Ok a, w')
    | (Throw e, w') => h e w'
    end.

(** A call of a primitive that only returns or throws. *)
Definition lift {A} (r : result A) : M A := fun w => (r, w).

(** A draw from the secure random source. *)
Definition draw {A} (gen : rng -> result A * rng) : M A :=
  fun w =>
    let (r, g) := gen (entropy w) in
    (r, {| entropy := g; console := console w |}).

(** [console.error(label, error)] *)
Definition console_error (label : string) (e : error) : M unit :=
  fun w =>
    (Ok tt, {| entropy := entropy w;
               console := console w ++ [LogLine label e] |}).
End Monad.

Notation "'do' x <- c ; k" := (bind c (fun x => k))
  (at level 10, x name, c at level 100, k at level 200).
Notation "'run' c ; k" := (bind c (fun _ => k))
  (at level 10, c at level 100, k at level 200).

(** ** Data classes

    [BinaryData] holds a [Uint8Array]; [Signature], [Message], [PrivateKey]
    and [PublicKey] extend it.  Each class is a type of its own here, so the
    [instanceof] assertions on the arguments of the public functions hold by
    typing. *)

Record Signature := Signature_of { Signature_toBinary : bytes }.
Record Message := Message_of { Message_toBinary : bytes }.
Record PrivateKey := PrivateKey_of { PrivateKey_toBinary : bytes }.
Record PublicKey := PublicKey_of { PublicKey_toBinary : bytes }.

(** What a caller may pass as [plainMessage] / [messageData]: a [Message]
    instance or any other value. *)
Inductive plain :=
| PlainMessage (m : Message)
| PlainValue (v : jsval).

(** The name [assertType] prints for a value: [constructor.name], else
    [typeof].  An object is taken to have no own [constructor] property. *)
Definition type_label (v : jsval) : string :=
  match v with
  | JUndefined => "undefined"
  | JNull => "object"
  | JBool _ => "Boolean"
  | JNumber _ => "Number"
  | JString _ => "String"
  | JBytes _ => "Uint8Array"
  | JArray _ => "Array"
  | JObject _ => "Object"
  end.

(** [dataType] in the [Message] constructor: [typeof data], replaced by the
    constructor name for a non-null object. *)
Definition message_type_label (v : jsval) : string :=
  match v with
  | JUndefined => "undefined"
  | JNull => "object"
  | JBool _ => "boolean"
  | JNumber _ => "number"
  | JString _ => "string"
  | JBytes _ => "Uint8Array"
  | JArray _ => "Array"
  | JObject _ => "Object"
  end.

Definition dquote : string := String (Ascii.ascii_of_nat 34) EmptyString.

Section Suite.
Context `{Primitives}.

(** [assertType({ data }, Uint8Array)] in the [BinaryData] constructor *)
Definition BinaryData_new (data : jsval) : M bytes :=
  match data with
  | JBytes b => ret b
  | _ => throw (Error ("data [" +:+ type_label data
                       +:+ "] is not an instance of [Uint8Array]."))
  end.

Definition Signature_new (data : jsval) : M Signature :=
  do b <- BinaryData_new data; ret (Signature_of b).

Definition PublicKey_new (data : jsval) : M PublicKey :=
  do b <- BinaryData_new data; ret (PublicKey_of b).

(** [new Message(data)] *)
Definition Message_new (data : jsval) : M Message :=
  match data with
  | JBytes b => ret (Message_of b)
  | JString s => ret (Message_of (TextEncoder_encode s))
  | _ =>
      throw (Error ("Invalid data type for Message constructor: "
                    +:+ "Expected string or Uint8Array, got "
                    +:+ message_type_label data))
  end.

(** [x instanceof Message ? x : new Message(x)] *)
Definition to_Message (x : plain) : M Message :=
  match x with
  | PlainMessage m => ret m
  | PlainValue v => Message_new v
  end.

(** [PrivateKey.randomPrivateKey()] *)
Definition PrivateKey_randomPrivateKey : M PrivateKey :=
  do b <- draw ed25519_randomPrivateKey; ret (PrivateKey_of b).

(** [get publicKey()] *)
Definition PrivateKey_publicKey (priv : PrivateKey) : M PublicKey :=
  do publicKeyData <- lift (ed25519_getPublicKey (PrivateKey_toBinary priv));
  ret (PublicKey_of publicKeyData).

(** [get id()] *)
Definition PublicKey_id (pub : PublicKey) : string :=
  bytesToHex (ripemd160 (PublicKey_toBinary pub)).

(** [PublicKey.verify(messageData, signature)].  The [catch] block leaves
    the method with [false]; so does the fall-through when [valid] is
    [false]. *)
Definition PublicKey_verify (pub : PublicKey) (messageData : plain)
    (signature : Signature) : M bool :=
  do message <- to_Message messageData;
  do valid <-
    try_catch
      (lift (ed25519_verify (Signature_toBinary signature)
               (Message_toBinary message) (PublicKey_toBinary pub)))
      (fun error =>
         run console_error "Verification error:" error;
         ret false);
  if negb valid then ret false else ret true.

(** *** ECIES core *)

(** [deriveAesKey(sharedSecret)]: HKDF-SHA256, no salt, the fixed [info]
    label, 32 bytes. *)
Definition aes_key_info : bytes := TextEncoder_encode "suite25519-aes-key".

Definition deriveAesKey (sharedSecret : bytes) : M bytes :=
  lift (hkdf_sha256 sharedSecret None aes_key_info 32).

(** The object literal
    [{ C: ciphertext, P_e: ephemeralPublicKeyX, N: nonce }] *)
Definition ecies_object (C P_e N : bytes) : jsval :=
  JObject (<["N" := JBytes N]> (<["P_e" := JBytes P_e]> {["C" := JBytes C]})).

(** [eciesEncrypt(receiverPublicKeyEd, messageUint8Array)] *)
Definition eciesEncrypt (receiverPublicKeyEd messageUint8Array : bytes)
    : M jsval :=
  try_catch
    (do receiverPublicKeyX <- lift (edwardsToMontgomeryPub receiverPublicKeyEd);
     do ephemeralPrivateKeyX <- draw x25519_randomPrivateKey;
     do ephemeralPublicKeyX <- lift (x25519_getPublicKey ephemeralPrivateKeyX);
     do sharedSecret <-
       lift (x25519_getSharedSecret ephemeralPrivateKeyX receiverPublicKeyX);
     do aesKey <- deriveAesKey sharedSecret;
     do nonce <- draw (randomBytes 12);
     do aes <- lift (siv aesKey nonce);
     do ciphertext <- lift (cipher_encrypt aes messageUint8Array);
     ret (ecies_object ciphertext ephemeralPublicKeyX nonce))
    (fun error =>
       throw (Error ("eciesEncrypt failed: " +:+ error_message error))).

Definition decryption_failed : error :=
  Error "Decryption failed (authentication tag mismatch or other error)".

(** [eciesDecrypt(receiverPrivateKeyEd, ephemeralPublicKeyX, nonce,
    ciphertext)] *)
Definition eciesDecrypt
    (receiverPrivateKeyEd ephemeralPublicKeyX nonce ciphertext : bytes)
    : M bytes :=
  try_catch
    (do receiverPrivateKeyX <-
       lift (edwardsToMontgomeryPriv receiverPrivateKeyEd);
     do sharedSecret <-
       lift (x25519_getSharedSecret receiverPrivateKeyX ephemeralPublicKeyX);
     do aesKey <- deriveAesKey sharedSecret;
     do aes <- lift (siv aesKey nonce);
     do plaintext <-
       try_catch
         (lift (cipher_decrypt aes ciphertext))
         (fun error =>
            run console_error "AES-SIV decryption failed:" error;
            throw decryption_failed);
     ret plaintext)
    (fun error =>
       throw (Error ("eciesDecrypt failed: " +:+ error_message error))).

(** *** The six public operations *)

(** Destructuring [const { ... } = value] throws on [undefined] and [null]. *)
Definition destructure (value : jsval) : M unit :=
  match value with
  | JUndefined | JNull => throw (destructure_error value)
  | _ => ret tt
  end.

(** [signMessage(plainMessage, signingPrivateKey, includeMessage = false,
    includeSenderPublicKey = false)]; an omitted flag is [None]. *)
Definition signMessage (plainMessage : plain) (signingPrivateKey : PrivateKey)
    (includeMessage includeSenderPublicKey : option bool) : M bytes :=
  let includeMessage := default false includeMessage in
  let includeSenderPublicKey := default false includeSenderPublicKey in
  do message <- to_Message plainMessage;
  let messageBinary := Message_toBinary message in
  do sig <-
    lift (ed25519_sign messageBinary (PrivateKey_toBinary signingPrivateKey));
  let result : gmap string jsval := {["sig" := JBytes sig]} in
  let result :=
    if includeMessage then <["m" := JBytes messageBinary]> result
    else result in
  do result <-
    (if includeSenderPublicKey then
       do publicKey <- PrivateKey_publicKey signingPrivateKey;
       ret (<["P" := JBytes (PublicKey_toBinary publicKey)]> result)
     else ret result);
  lift (cbor_encode (JObject result)).

Definition missing_signature : error :=
  Error "Invalid signed payload: Missing or invalid signature.".
Definition message_not_bytes : error :=
  Error ("Invalid signed payload: Included message " +:+ dquote +:+ "m"
         +:+ dquote +:+ " is not Uint8Array.").
Definition public_key_not_bytes : error :=
  Error ("Invalid signed payload: Included public key " +:+ dquote +:+ "P"
         +:+ dquote +:+ " is not Uint8Array.").
Definition key_mismatch : error :=
  Error ("Verification failed: Included public key 'P' does not match "
         +:+ "expected senderPublicKey.").
Definition message_missing : error :=
  Error "Verification failed: Message 'm' not included in the signed payload.".
Definition invalid_signature : error :=
  Error "Verification failed: Invalid signature.".

(** [verifyMessage(signedPayload, senderPublicKey)] *)
Definition verifyMessage (signedPayload : bytes) (senderPublicKey : PublicKey)
    : M jsval :=
  do decoded <- lift (cbor_decode signedPayload);
  run destructure decoded;
  let sig := get_prop decoded "sig" in
  let m := get_prop decoded "m" in
  let P := get_prop decoded "P" in
  if negb (truthy sig) || negb (is_bytes sig) then throw missing_signature
  else if negb (is_undefined m) && negb (is_bytes m) then
    throw message_not_bytes
  else if negb (is_undefined P) && negb (is_bytes P) then
    throw public_key_not_bytes
  else
    run (if truthy P then
           do includedPublicKey <- PublicKey_new P;
           if bool_decide (PublicKey_id includedPublicKey
                           <> PublicKey_id senderPublicKey)
           then throw key_mismatch
           else ret tt
         else ret tt);
    if is_undefined m then throw message_missing
    else
      do signature <- Signature_new sig;
      do message <- Message_new m;
      do valid <-
        PublicKey_verify senderPublicKey (PlainMessage message) signature;
      if negb valid then throw invalid_signature
      else ret m.

(** [encryptMessage(plainMessage, recipientPublicKey)] *)
Definition encryptMessage (plainMessage : plain)
    (recipientPublicKey : PublicKey) : M bytes :=
  do message <- to_Message plainMessage;
  let messageBinary := Message_toBinary message in
  do cipherObject <-
    eciesEncrypt (PublicKey_toBinary recipientPublicKey) messageBinary;
  lift (cbor_encode cipherObject).

Definition invalid_encrypted_payload : error :=
  Error "Invalid encrypted payload structure after CBOR decoding.".

(** [decryptMessage(encryptedPayload, recipientPrivateKey)] *)
Definition decryptMessage (encryptedPayload : bytes)
    (recipientPrivateKey : PrivateKey) : M bytes :=
  do decoded <- lift (cbor_decode encryptedPayload);
  run destructure decoded;
  match as_bytes (get_prop decoded "C"),
        as_bytes (get_prop decoded "P_e"),
        as_bytes (get_prop decoded "N") with
  | Some C, Some P_e, Some N =>
      eciesDecrypt (PrivateKey_toBinary recipientPrivateKey) P_e N C
  | _, _, _ => throw invalid_encrypted_payload
  end.

(** [signAndEncryptMessage(plainMessage, signingPrivateKey,
    recipientPublicKey, includeSenderPublicKey = true)] *)
Definition signAndEncryptMessage (plainMessage : plain)
    (signingPrivateKey : PrivateKey) (recipientPublicKey : PublicKey)
    (includeSenderPublicKey : option bool) : M bytes :=
  let includeSenderPublicKey := default true includeSenderPublicKey in
  do signedPayload <-
    signMessage plainMessage signingPrivateKey (Some true)
      (Some includeSenderPublicKey);
  encryptMessage (PlainValue (JBytes signedPayload)) recipientPublicKey.

(** [decryptAndVerifyMessage(encryptedSignedPayload, recipientPrivateKey,
    senderPublicKey)] *)
Definition decryptAndVerifyMessage (encryptedSignedPayload : bytes)
    (recipientPrivateKey : PrivateKey) (senderPublicKey : PublicKey)
    : M jsval :=
  do signedPayload <- decryptMessage encryptedSignedPayload recipientPrivateKey;
  verifyMessage signedPayload senderPublicKey.
End Suite.

(** ** A small instance of the interface

    Byte-wise arithmetic modulo 256 stands in for the curve, a checksum for
    the hashes and the authentication tag, and a length-free escaped
    encoding for CBOR.  It has no security; it shows that the contracts
    assumed of the primitives below can be met together, and lets the
    module's functions be run on concrete inputs. *)
Module Toy.

Definition byte_of_N (n : N) : byte := default x00 (Byte.of_N (n mod 256)).

Definition byte_add (a b : byte) : byte :=
  byte_of_N (Byte.to_N a + Byte.to_N b).

Definition byte_mul (a b : byte) : byte :=
  byte_of_N (Byte.to_N a * Byte.to_N b).

Definition checksum (l : bytes) : byte := foldr byte_add x00 l.

(** [n] bytes: a checksum of [l], then [l], padded with zeros. *)
Definition digest (n : nat) (l : bytes) : bytes :=
  take n (checksum l :: l ++ replicate n x00).

Definition fresh (n : nat) (g : nat) : result bytes * nat :=
  (Ok (replicate n (byte_of_N (N.of_nat g))), S g).

Definition has_length (n : nat) (l : bytes) : bool := Nat.eqb (length l) n.

Definition public_of (priv : bytes) : result bytes :=
  if has_length 32 priv then Ok (map (byte_mul x03) priv)
  else Throw (Error "private key of length 32 expected").

Definition sign (msg priv : bytes) : result bytes :=
  if has_length 32 priv then
    Ok (map (byte_mul x03) priv ++ digest 32 msg)
  else Throw (Error "private key of length 32 expected").

Definition verify (sig msg pub : bytes) : result bool :=
  if negb (has_length 64 sig) then
    Throw (Error "signature of length 64 expected")
  else if negb (has_length 32 pub) then
    Throw (Error "public key of length 32 expected")
  else Ok (bool_decide (sig = pub ++ digest 32 msg)).

Definition shared_secret (priv pub : bytes) : result bytes :=
  if has_length 32 priv && has_length 32 pub then
    Ok (zip_with byte_mul priv pub)
  else Throw (Error "invalid private or public key received").

Definition to_montgomery (key : bytes) : result bytes :=
  if has_length 32 key then Ok key
  else Throw (Error "key of length 32 expected").

Definition hkdf (ikm : bytes) (salt : option bytes) (info : bytes)
    (n : nat) : result bytes :=
  if (n <=? 255 * 32)%nat then Ok (digest n (ikm ++ default [] salt ++ info))
  else Throw (Error "Length should be <= 255*HashLen").

Definition new_cipher (key nonce : bytes) : result (bytes * bytes) :=
  if has_length 32 key && has_length 12 nonce then Ok (key, nonce)
  else Throw (Error "invalid key or nonce length").

Definition tag (c : bytes * bytes) (msg : bytes) : bytes :=
  digest 16 (c.1 ++ c.2 ++ msg).

Definition encrypt (c : bytes * bytes) (msg : bytes) : result bytes :=
  Ok (msg ++ tag c msg).

Definition decrypt (c : bytes * bytes) (ct : bytes) : result bytes :=
  let n := (length ct - 16)%nat in
  let msg := take n ct in
  if bool_decide (drop n ct = tag c msg) && (16 <=? length ct)%nat
  then Ok msg
  else Throw (Error "invalid tag").

(** The codec: a byte sequence is written with a [x01] before each byte
    and a closing [x00]; an object of byte sequences is written field by
    field, each field opened by [x01], and closed by [x00]. *)
Definition write_bytes (b : bytes) : bytes :=
  flat_map (fun x => [x01; x]) b ++ [x00].

Definition write_field (f : string * bytes) : bytes :=
  x01 :: write_bytes (String.list_byte_of_string f.1) ++ write_bytes f.2.

Definition write_fields (l : list (string * bytes)) : bytes :=
  flat_map write_field l ++ [x00].

Fixpoint read_bytes (l : bytes) : option (bytes * bytes) :=
  match l with
  | x00 :: rest => Some ([], rest)
  | x01 :: x :: rest =>
      match read_bytes rest with
      | Some (b, rest') => Some (x :: b, rest')
      | None => None
      end
  | _ => None
  end.

Fixpoint read_fields (fuel : nat) (l : bytes)
    : option (list (string * bytes)) :=
  match fuel with
  | O => None
  | S fuel =>
      match l with
      | [x00] => Some []
      | x01 :: rest =>
          match read_bytes rest with
          | Some (k, rest1) =>
              match read_bytes rest1 with
              | Some (v, rest2) =>
                  match read_fields fuel rest2 with
                  | Some fs =>
                      Some ((String.string_of_list_byte k, v) :: fs)
                  | None => None
                  end
              | None => None
              end
          | None => None
          end
      | _ => None
      end
  end.

Definition field_bytes (f : string * jsval) : option (string * bytes) :=
  match f.2 with JBytes b => Some (f.1, b) | _ => None end.

Definition field_value (f : string * bytes) : string * jsval :=
  (f.1, JBytes f.2).

Definition encode (v : jsval) : result bytes :=
  match v with
  | JObject o =>
      match mapM field_bytes (map_to_list o) with
      | Some fs => Ok (write_fields fs)
      | None => Throw (Error "unsupported value")
      end
  | _ => Throw (Error "unsupported value")
  end.

Definition decode (l : bytes) : result jsval :=
  match read_fields (length l) l with
  | Some fs => Ok (JObject (list_to_map (field_value <$> fs)))
  | None => Throw (Error "malformed input")
  end.

#[export] Instance primitives : Primitives := {|
  rng := nat;
  randomBytes := fresh;
  ed25519_randomPrivateKey := fresh 32;
  x25519_randomPrivateKey := fresh 32;
  ed25519_getPublicKey := public_of;
  ed25519_sign := sign;
  ed25519_verify := verify;
  x25519_getPublicKey := public_of;
  x25519_getSharedSecret := shared_secret;
  edwardsToMontgomeryPub := to_montgomery;
  edwardsToMontgomeryPriv := to_montgomery;
  hkdf_sha256 := hkdf;
  cipher := bytes * bytes;
  siv := new_cipher;
  cipher_encrypt := encrypt;
  cipher_decrypt := decrypt;
  ripemd160 := digest 20;
  cbor_encode := encode;
  cbor_decode := decode;
  destructure_error := fun _ => Error "Cannot destructure property";
|}.

(** Concrete inputs. *)
Definition w0 : world := {| entropy := 7%nat; console := [] |}.
Definition alice : PrivateKey := PrivateKey_of (replicate 32 x05).
Definition bob : PrivateKey := PrivateKey_of (replicate 32 x09).
Definition alice_pub : PublicKey := PublicKey_of (replicate 32 x0f).
Definition bob_pub : PublicKey := PublicKey_of (replicate 32 x1b).
Definition hello : bytes := TextEncoder_encode "Hello, World!".
Definition secret : bytes := TextEncoder_encode "Secret Message".

Definition payload_of (r : result bytes) : bytes :=
  match r with Ok p => p | Throw _ => [] end.

Definition field_of (v : jsval) (k : string) : bytes :=
  default [] (as_bytes (get_prop v k)).

(** [secret] encrypted to [bob] in the world [w0], as an object and as a
    payload; the world after it. *)
Definition sealed_object : jsval :=
  match (eciesEncrypt (PublicKey_toBinary bob_pub) secret w0).1 with
  | Ok v => v
  | Throw _ => JUndefined
  end.
Definition sealed : bytes :=
  payload_of (encryptMessage (PlainValue (JBytes secret)) bob_pub w0).1.
Definition w2 : world := {| entropy := 9%nat; console := [] |}.

(** The same envelope with the lowest bit of the first ciphertext byte
    flipped. *)
Definition flip_first (l : bytes) : bytes :=
  match l with
  | b :: rest => byte_of_N (N.lxor (Byte.to_N b) 1) :: rest
  | [] => []
  end.
Definition tampered : bytes :=
  payload_of
    (encode (ecies_object (flip_first (field_of sealed_object "C"))
               (field_of sealed_object "P_e") (field_of sealed_object "N"))).

(** Signed payloads: one made by the two-argument call, one carrying a
    signature of one byte, one carrying 64 zero bytes as signature. *)
Definition detached : bytes :=
  payload_of (signMessage (PlainValue (JBytes hello)) alice None None w0).1.
Definition forged : bytes :=
  payload_of
    (encode (JObject (<["m" := JBytes hello]>
                        {["sig" := JBytes (replicate 64 x00)]}))).
End Toy.

(** ** The rest of the module

    The Base64 helpers, [assertType] on decoded values, the methods of the
    data classes that the six functions do not go through
    ([PrivateKey.decrypt], [PrivateKey.sign], [PublicKey.encrypt],
    [Message.randomBytes], [Message.toString], the Base64 export and
    import), written against the same interface. *)

(** Built-ins of the platform.  A binary string, the argument of [btoa] and
    the result of [atob], is the sequence of its character codes. *)
Class Platform := {
  (** [btoa(binaryString)] *)
  btoa : list N -> result string;
  (** [atob(base64)] *)
  atob : string -> result (list N);
  (** [new TextDecoder().decode(bytes)]: a decoder built without the
      [fatal] option, which answers every byte sequence and does not
      throw *)
  TextDecoder_decode : bytes -> string;
}.

(** Storing a number into a [Uint8Array] keeps it modulo 256. *)
Definition ToUint8 (n : N) : byte := default x00 (Byte.of_N (n mod 256)).

(** [typeof variable] *)
Definition js_typeof (v : jsval) : string :=
  match v with
  | JUndefined => "undefined"
  | JBool _ => "boolean"
  | JNumber _ => "number"
  | JString _ => "string"
  | JNull | JBytes _ | JArray _ | JObject _ => "object"
  end.

Section Methods.
Context `{Primitives} `{Platform}.

(** [assertType({ name: variable }, "string")] *)
Definition assertType_string (variableName : string) (variable : jsval)
    : M string :=
  match variable with
  | JString s => ret s
  | _ =>
      throw (Error (variableName +:+ " [" +:+ js_typeof variable
                    +:+ "] is not an instance of [string]."))
  end.

(** [assertType({ name: variable }, Uint8Array)] *)
Definition assertType_Uint8Array (variableName : string) (variable : jsval)
    : M bytes :=
  match variable with
  | JBytes b => ret b
  | _ =>
      throw (Error (variableName +:+ " [" +:+ type_label variable
                    +:+ "] is not an instance of [Uint8Array]."))
  end.

(** [bytesToBase64(bytes)]: one character per byte, then [btoa]. *)
Definition bytesToBase64 (data : bytes) : M string :=
  let binaryString := map Byte.to_N data in
  try_catch
    (lift (btoa binaryString))
    (fun e =>
       throw (Error ("Failed to encode bytes to base64: "
                     +:+ error_message e))).

(** [base64ToBytes(base64)]: [atob], then one byte per character. *)
Definition base64ToBytes (base64 : string) : M bytes :=
  try_catch
    (do binString <- lift (atob base64);
     ret (map ToUint8 binString))
    (fun e =>
       throw (Error ("Failed to decode base64 string: "
                     +:+ error_message e))).

(** [BinaryData.fromBase64(base64Data, ClassType)]; [className] is
    [ClassType.name] and [construct] is [new ClassType(data)]. *)
Definition BinaryData_fromBase64 {A} (className : string)
    (construct : bytes -> M A) (base64Data : jsval) : M A :=
  do base64 <- assertType_string "base64Data" base64Data;
  try_catch
    (do data <- base64ToBytes base64;
     construct data)
    (fun e =>
       throw (Error ("Failed to decode base64 for " +:+ className +:+ ": "
                     +:+ error_message e))).

(** [exportAsBase64()] and [importFromBase64(base64Key)] of the two key
    classes *)
Definition PrivateKey_exportAsBase64 (priv : PrivateKey) : M string :=
  bytesToBase64 (PrivateKey_toBinary priv).

Definition PrivateKey_importFromBase64 (base64Key : jsval) : M PrivateKey :=
  BinaryData_fromBase64 "PrivateKey" (fun data => ret (PrivateKey_of data))
    base64Key.

Definition PublicKey_exportAsBase64 (pub : PublicKey) : M string :=
  bytesToBase64 (PublicKey_toBinary pub).

Definition PublicKey_importFromBase64 (base64Key : jsval) : M PublicKey :=
  BinaryData_fromBase64 "PublicKey" (fun data => ret (PublicKey_of data))
    base64Key.

(** [Message.randomBytes(length = 32)]; an omitted length is [None]. *)
Definition Message_randomBytes (length : option nat) : M Message :=
  let length := default 32 length in
  do data <- draw (randomBytes length);
  Message_new (JBytes data).


(** [PrivateKey.decrypt(encryptedPayload)] *)
Definition PrivateKey_decrypt (priv : PrivateKey) (encryptedPayload : bytes)
    : M Message :=
  do decoded <- lift (cbor_decode encryptedPayload);
  run destructure decoded;
  do C <- assertType_Uint8Array "C" (get_prop decoded "C");
  do P_e <- assertType_Uint8Array "P_e" (get_prop decoded "P_e");
  do N <- assertType_Uint8Array "N" (get_prop decoded "N");
  do plaintext <- eciesDecrypt (PrivateKey_toBinary priv) P_e N C;
  Message_new (JBytes plaintext).

(** [PrivateKey.sign(messageData)] *)
Definition PrivateKey_sign (priv : PrivateKey) (messageData : plain)
    : M Signature :=
  do message <- to_Message messageData;
  do sigData <-
    lift (ed25519_sign (Message_toBinary message) (PrivateKey_toBinary priv));
  ret (Signature_of sigData).

(** [PublicKey.encrypt(messageData)] *)
Definition PublicKey_encrypt (pub : PublicKey) (messageData : plain)
    : M bytes :=
  do message <- to_Message messageData;
  do cipherObject <-
    eciesEncrypt (PublicKey_toBinary pub) (Message_toBinary message);
  lift (cbor_encode cipherObject).
End Methods.

(** The error of [assertType({ name: variable }, Uint8Array)], [label]
    being what it prints for the type of the value. *)
Definition not_Uint8Array_error (variableName label : string) : error :=
  Error (variableName +:+ " [" +:+ label
         +:+ "] is not an instance of [Uint8Array].").

(** The first of [C], [P_e], [N] that is not a [Uint8Array], in the order
    [PrivateKey.decrypt] asserts them. *)
Definition first_bad_field (decoded : jsval) : option string :=
  if negb (is_bytes (get_prop decoded "C")) then Some "C"
  else if negb (is_bytes (get_prop decoded "P_e")) then Some "P_e"
  else if negb (is_bytes (get_prop decoded "N")) then Some "N"
  else None.

(** [null] and [undefined], which cannot be destructured. *)
Definition is_nullish (v : jsval) : bool :=
  match v with JUndefined | JNull => true | _ => false end.

(** A small instance of the platform: the hexadecimal rendering stands in
    for Base64, and the decoder reads the bytes of a text back as that
    text. *)
Module ToyPlatform.

Definition to_base64 (l : list N) : result string :=
  if forallb (fun n => (n <=? 255)%N) l then Ok (bytesToHex (map ToUint8 l))
  else Throw (Error "Invalid character").

Definition from_base64 (s : string) : result (list N) :=
  if all_lower_hex s && Nat.even (String.length s)
  then Ok (map Byte.to_N (unhex s))
  else Throw (Error "The string to be decoded is not correctly encoded.").

Definition decode_text (b : bytes) : string := String.string_of_list_byte b.

#[export] Instance platform : Platform := {|
  btoa := to_base64;
  atob := from_base64;
  TextDecoder_decode := decode_text;
|}.

(** Concrete inputs: a payload that has no field [P_e], a payload
    signed by [alice] with the message and without her key, the envelope
    made by [signAndEncryptMessage] from [alice] to [bob]. *)
Definition misshapen : bytes :=
  Toy.payload_of
    (Toy.encode (JObject (<["N" := JBytes [x01]]>
                            (<["C" := JBytes [x02]]> ∅)))).

Definition keyless : bytes :=
  Toy.payload_of
    (signMessage (PlainValue (JBytes Toy.hello)) Toy.alice (Some true)
       (Some false) Toy.w0).1.

Definition sealed_signed : bytes :=
  Toy.payload_of
    (signAndEncryptMessage (PlainValue (JBytes Toy.hello)) Toy.alice
       Toy.bob_pub None Toy.w0).1.

Definition signed_full : bytes :=
  Toy.payload_of
    (signMessage (PlainValue (JBytes Toy.hello)) Toy.alice (Some true)
       (Some true) Toy.w0).1.

(** A 31-byte value that is no key, as a public and as a private key. *)
Definition stub_key : PublicKey := PublicKey_of (replicate 31 x01).
Definition stub_priv : PrivateKey := PrivateKey_of (replicate 31 x01).

(** An envelope whose nonce has one byte. *)
Definition short_nonce : bytes :=
  Toy.payload_of
    (Toy.encode (ecies_object [x02] (replicate 32 x03) [x01])).
End ToyPlatform.

(** * Properties *)

(** ** The byte sequence of a message argument *)

(** The bytes a [plainMessage] argument stands for: those of a [Message]
    instance or of a [Uint8Array], the UTF-8 encoding of a string; nothing
    for any other value. *)
Definition plain_bytes (x : plain) : option bytes :=
  match x with
  | PlainMessage m => Some (Message_toBinary m)
  | PlainValue (JBytes b) => Some b
  | PlainValue (JString s) => Some (TextEncoder_encode s)
  | PlainValue _ => None
  end.

(** The fields of a signed envelope, as byte sequences. *)
Definition signed_fields (sig : bytes) (m P : option bytes)
    : gmap string bytes :=
  let o : gmap string bytes := {["sig" := sig]} in
  let o := match m with Some b => <["m" := b]> o | None => o end in
  match P with Some b => <["P" := b]> o | None => o end.

Definition ecies_fields (C P_e N : bytes) : gmap string bytes :=
  <["N" := N]> (<["P_e" := P_e]> {["C" := C]}).

Arguments signed_fields : simpl never.
Arguments ecies_fields : simpl never.

(** The property names of the two envelopes. *)
Definition wire_fields : gset string :=
  {["sig"; "m"; "P"; "C"; "P_e"; "N"]}.

Section Notions.
Context `{Primitives}.

(** The world after [console.error(label, e)]. *)
Definition logged (w : world) (label : string) (e : error) : world :=
  {| entropy := entropy w; console := console w ++ [LogLine label e] |}.

(** What the embedded key has to satisfy: absent, or with the KeyId of the
    expected key. *)
Definition key_accepted (decoded : jsval) (pub : PublicKey) : Prop :=
  get_prop decoded "P" = JUndefined
  \/ exists P, get_prop decoded "P" = JBytes P
               /\ PublicKey_id (PublicKey_of P) = PublicKey_id pub.

(** What [decryptMessage] throws when the cipher rejects: the fixed
    message of the inner [catch] behind the prefix of the outer one. *)
Definition authentication_failed : error :=
  Error ("eciesDecrypt failed: " +:+ error_message decryption_failed).

(** The world after the two draws of one [eciesEncrypt] call. *)
Definition drawn (w : world) (g : rng) : world :=
  {| entropy := g; console := console w |}.


(** [pub] is the public key derived from [priv]. *)
Definition key_pair (priv : PrivateKey) (pub : PublicKey) : Prop :=
  ed25519_getPublicKey (PrivateKey_toBinary priv)
  = Ok (PublicKey_toBinary pub).
End Notions.

(** ** What a thrown error tells

    For each operation, the failures it can surface: which step failed, the
    error the caller sees for it and the world it leaves.  The error is the
    step's own error, or its message behind the prefix of [eciesEncrypt] or
    [eciesDecrypt], or one of the module's own errors. *)

#[global] Instance error_eq_decision : EqDecision error.
Proof. solve_decision. Defined.


(** The error of the [Message] constructor for a value printed as [label]. *)
Definition invalid_message_data (label : string) : error :=
  Error ("Invalid data type for Message constructor: "
         +:+ "Expected string or Uint8Array, got "
         +:+ label).



Section Causes.
Context `{Primitives}.






End Causes.

Lemma get_prop_fmap (o : gmap string bytes) (k : string) :
  get_prop (JObject (JBytes <$> o)) k = from_option JBytes JUndefined (o !! k).
Proof.
  unfold get_prop. rewrite lookup_fmap. by destruct (o !! k).
Qed.

Lemma signed_fields_wire sig m P : dom (signed_fields sig m P) ⊆ wire_fields.
Proof.
  unfold signed_fields, wire_fields.
  destruct m, P; rewrite ?dom_insert_L, dom_singleton_L; set_solver.
Qed.

Lemma ecies_fields_wire C P_e N : dom (ecies_fields C P_e N) ⊆ wire_fields.
Proof.
  unfold ecies_fields, wire_fields.
  rewrite !dom_insert_L, dom_singleton_L. set_solver.
Qed.

Lemma signed_fields_sig sig m P : signed_fields sig m P !! "sig" = Some sig.
Proof. unfold signed_fields. by destruct m, P; simplify_map_eq. Qed.

Lemma signed_fields_m sig m P : signed_fields sig m P !! "m" = m.
Proof. unfold signed_fields. by destruct m, P; simplify_map_eq. Qed.

Lemma signed_fields_P sig m P : signed_fields sig m P !! "P" = P.
Proof. unfold signed_fields. by destruct m, P; simplify_map_eq. Qed.

Lemma ecies_object_fields C P_e N :
  ecies_object C P_e N = JObject (JBytes <$> ecies_fields C P_e N).
Proof.
  unfold ecies_object, ecies_fields.
  by rewrite !fmap_insert, map_fmap_singleton.
Qed.

Lemma ecies_fields_lookup C P_e N :
  ecies_fields C P_e N !! "C" = Some C
  /\ ecies_fields C P_e N !! "P_e" = Some P_e
  /\ ecies_fields C P_e N !! "N" = Some N.
Proof. unfold ecies_fields. by simplify_map_eq. Qed.

(** ** Running the monad *)

Ltac run_monad :=
  unfold bind, lift, ret, throw, try_catch, draw, console_error; simpl.

Section Steps.
Context `{Primitives}.

Lemma bind_ok {A B} (c : M A) (k : A -> M B) w a w' :
  c w = (Ok a, w') -> bind c k w = k a w'.
Proof. unfold bind. by intros ->. Qed.

Lemma bind_throw {A B} (c : M A) (k : A -> M B) w e w' :
  c w = (Throw e, w') -> bind c k w = (Throw e, w').
Proof. unfold bind. by intros ->. Qed.


Lemma to_Message_bytes x b w :
  plain_bytes x = Some b -> to_Message x w = (Ok (Message_of b), w).
Proof.
  destruct x as [[m]|v]; simpl.
  - by intros [= <-].
  - destruct v; intros [= <-]; reflexivity.
Qed.


(** A public key read off a private key forms a key pair with it. *)
Lemma generated_key_pair priv pub w w' :
  PrivateKey_publicKey priv w = (Ok pub, w') -> key_pair priv pub /\ w' = w.
Proof.
  unfold PrivateKey_publicKey, key_pair. run_monad.
  destruct (ed25519_getPublicKey _) as [data|]; [|discriminate].
  by intros [= <- <-].
Qed.

(** [PublicKey.verify] never throws: an exception of the primitive is
    logged and answered with [false]. *)
Lemma PublicKey_verify_run pub msg signature w :
  PublicKey_verify pub (PlainMessage msg) signature w =
    match ed25519_verify (Signature_toBinary signature)
            (Message_toBinary msg) (PublicKey_toBinary pub) with
    | Ok valid => (Ok valid, w)
    | Throw e =>
        (Ok false,
         {| entropy := entropy w;
            console := console w ++ [LogLine "Verification error:" e] |})
    end.
Proof.
  unfold PublicKey_verify. run_monad.
  destruct (ed25519_verify _ _ _) as [[|]|e]; reflexivity.
Qed.
End Steps.

(** ** [verifyMessage], case by case *)

Section Verify.
Context `{Primitives}.

Lemma get_prop_bytes_object decoded k b :
  get_prop decoded k = JBytes b -> exists o, decoded = JObject o.
Proof. destruct decoded; try discriminate. eauto. Qed.

Lemma verifyMessage_key_mismatch payload decoded sig P pub w :
  cbor_decode payload = Ok decoded ->
  get_prop decoded "sig" = JBytes sig ->
  get_prop decoded "m" = JUndefined \/ is_bytes (get_prop decoded "m") = true ->
  get_prop decoded "P" = JBytes P ->
  PublicKey_id (PublicKey_of P) <> PublicKey_id pub ->
  verifyMessage payload pub w = (Throw key_mismatch, w).
Proof.
  intros Hdec Hsig Hm HP Hid.
  destruct (get_prop_bytes_object _ _ _ Hsig) as [o ->].
  unfold verifyMessage. run_monad. rewrite Hdec. simpl.
  rewrite Hsig, HP. simpl.
  rewrite bool_decide_eq_true_2 by done.
  destruct Hm as [-> | ->]; [done | by rewrite andb_false_r].
Qed.

Lemma verifyMessage_message_missing payload decoded sig pub w :
  cbor_decode payload = Ok decoded ->
  get_prop decoded "sig" = JBytes sig ->
  get_prop decoded "m" = JUndefined ->
  key_accepted decoded pub ->
  verifyMessage payload pub w = (Throw message_missing, w).
Proof.
  intros Hdec Hsig Hm HP.
  destruct (get_prop_bytes_object _ _ _ Hsig) as [o ->].
  unfold verifyMessage. run_monad. rewrite Hdec. simpl.
  rewrite Hsig, Hm. simpl.
  destruct HP as [-> | (P & -> & Hid)]; simpl; [done |].
  by rewrite bool_decide_eq_false_2 by (intros ?; contradiction).
Qed.

Lemma verifyMessage_checked payload decoded sig m pub w :
  cbor_decode payload = Ok decoded ->
  get_prop decoded "sig" = JBytes sig ->
  get_prop decoded "m" = JBytes m ->
  key_accepted decoded pub ->
  verifyMessage payload pub w =
    match ed25519_verify sig m (PublicKey_toBinary pub) with
    | Ok true => (Ok (JBytes m), w)
    | Ok false => (Throw invalid_signature, w)
    | Throw e => (Throw invalid_signature, logged w "Verification error:" e)
    end.
Proof.
  intros Hdec Hsig Hm HP.
  destruct (get_prop_bytes_object _ _ _ Hsig) as [o ->].
  unfold verifyMessage. run_monad. rewrite Hdec. simpl.
  rewrite Hsig, Hm. simpl.
  pose proof (PublicKey_verify_run pub (Message_of m) (Signature_of sig)) as Hv.
  simpl in Hv.
  destruct HP as [-> | (P & -> & Hid)]; simpl.
  - rewrite Hv. by destruct (ed25519_verify sig m _) as [[|]|e].
  - rewrite bool_decide_eq_false_2 by (intros ?; contradiction).
    rewrite Hv. by destruct (ed25519_verify sig m _) as [[|]|e].
Qed.

(** Whatever the payload, a returned value is the decoded field [m], a
    byte sequence, the signature over it was checked and found valid, and
    the embedded key (if any) was accepted. *)
Lemma verifyMessage_inv payload pub w v w' :
  verifyMessage payload pub w = (Ok v, w') ->
  exists decoded sig m,
    cbor_decode payload = Ok decoded
    /\ get_prop decoded "sig" = JBytes sig
    /\ get_prop decoded "m" = JBytes m
    /\ key_accepted decoded pub
    /\ ed25519_verify sig m (PublicKey_toBinary pub) = Ok true
    /\ v = JBytes m /\ w' = w.
Proof.
  unfold verifyMessage. run_monad.
  destruct (cbor_decode payload) as [decoded|e] eqn:Hdec; [|discriminate].
  destruct decoded as [| | | | | |l|o]; simpl; try discriminate.
  destruct (get_prop (JObject o) "sig") as [| | | | |sig| |] eqn:Hsig;
    simpl; rewrite ?orb_true_r; try discriminate.
  destruct (get_prop (JObject o) "m") as [| | | | |m| |] eqn:Hm;
    simpl; try discriminate.
  - destruct (get_prop (JObject o) "P") as [| | | | |P| |] eqn:HP;
      simpl; try discriminate.
    case_bool_decide; simpl; discriminate.
  - pose proof (PublicKey_verify_run pub (Message_of m) (Signature_of sig))
      as Hv.
    simpl in Hv.
    assert (forall w0 : world,
      (let (r1, w'1) :=
         PublicKey_verify pub (PlainMessage (Message_of m))
           (Signature_of sig) w0 in
       match r1 with
       | Ok a1 =>
           (if negb a1
            then (fun w2 : world => (Throw invalid_signature, w2))
            else (fun w2 : world => (Ok (JBytes m), w2))) w'1
       | Throw e => (Throw e, w'1)
       end) = (Ok v, w') ->
      ed25519_verify sig m (PublicKey_toBinary pub) = Ok true
      /\ v = JBytes m /\ w' = w0) as Hrun.
    { intros w0. rewrite Hv.
      destruct (ed25519_verify sig m _) as [[|]|e]; simpl;
        intros [= <- <-]; done. }
    destruct (get_prop (JObject o) "P") as [| | | | |P| |] eqn:HP;
      simpl; try discriminate.
    + intros (? & ? & ?)%Hrun.
      exists (JObject o), sig, m. repeat split; try done. by left.
    + case_bool_decide as Hid; simpl; [discriminate|].
      intros (? & ? & ?)%Hrun.
      exists (JObject o), sig, m. repeat split; try done.
      right. exists P. split; [done|].
      by destruct (decide (PublicKey_id (PublicKey_of P) = PublicKey_id pub)).
Qed.

(** Without a field [m] there is no success. *)
Lemma verifyMessage_needs_message payload pub w :
  (forall decoded,
      cbor_decode payload = Ok decoded -> get_prop decoded "m" = JUndefined) ->
  exists e, verifyMessage payload pub w = (Throw e, w).
Proof.
  intros Hm.
  destruct (verifyMessage payload pub w) as [[v|e] w'] eqn:Hrun.
  - apply verifyMessage_inv in Hrun
      as (decoded & sig & m & Hdec & _ & Hm' & _).
    rewrite (Hm _ Hdec) in Hm'. discriminate.
  - exists e. f_equal.
    revert Hrun. unfold verifyMessage. run_monad.
    destruct (cbor_decode payload) as [decoded|e0];
      [|by intros [= _ <-]].
    rewrite (Hm _ eq_refl).
    destruct decoded as [| | | | | |l|o]; simpl;
      try (by intros [= _ <-]).
    destruct (_ || _); [by intros [= _ <-]|]. simpl.
    destruct (_ && _); [by intros [= _ <-]|].
    destruct (truthy _); simpl; [|by intros [= _ <-]].
    unfold PublicKey_new, BinaryData_new.
    destruct (get_prop (JObject o) "P"); run_monad;
      try (by intros [= _ <-]).
    case_bool_decide; simpl; by intros [= _ <-].
Qed.
End Verify.

(** ** Signing and verifying *)

Section Signing.
Context `{Primitives}.

(** Contract of Ed25519: a private key that has a public key signs every
    message, and the signature verifies under that public key. *)
Hypothesis ed25519_correct : forall priv pub msg,
  ed25519_getPublicKey priv = Ok pub ->
  exists sig, ed25519_sign msg priv = Ok sig
              /\ ed25519_verify sig msg pub = Ok true.

(** Contract of the codec: an object of byte sequences under the property
    names of the envelopes is encoded, and decoded back to itself. *)
Hypothesis cbor_round_trip : forall o : gmap string bytes,
  dom o ⊆ wire_fields ->
  exists b, cbor_encode (JObject (JBytes <$> o)) = Ok b
            /\ cbor_decode b = Ok (JObject (JBytes <$> o)).

Lemma signMessage_run x b priv pub includeMessage includeSenderPublicKey w :
  plain_bytes x = Some b ->
  key_pair priv pub ->
  exists sig payload,
    ed25519_verify sig b (PublicKey_toBinary pub) = Ok true
    /\ signMessage x priv includeMessage includeSenderPublicKey w
       = (Ok payload, w)
    /\ cbor_decode payload
       = Ok (JObject (JBytes <$>
           signed_fields sig
             (if default false includeMessage then Some b else None)
             (if default false includeSenderPublicKey
              then Some (PublicKey_toBinary pub) else None))).
Proof.
  intros Hx Hpub.
  destruct (ed25519_correct _ _ b Hpub) as (sig & Hsign & Hverify).
  set (fields := signed_fields sig
         (if default false includeMessage then Some b else None)
         (if default false includeSenderPublicKey
          then Some (PublicKey_toBinary pub) else None)).
  destruct (cbor_round_trip fields (signed_fields_wire _ _ _))
    as (payload & Henc & Hdec).
  exists sig, payload. split; [done|]. split; [|done].
  unfold signMessage.
  rewrite (bind_ok _ _ _ _ _ (to_Message_bytes _ _ w Hx)). simpl.
  unfold PrivateKey_publicKey. run_monad. rewrite Hsign.
  subst fields. unfold signed_fields in Henc.
  destruct (default false includeMessage),
    (default false includeSenderPublicKey); simpl in *;
    rewrite ?Hpub; simpl;
    rewrite ?fmap_insert, map_fmap_singleton in Henc; by rewrite Henc.
Qed.

Lemma PublicKey_id_of pub :
  PublicKey_id (PublicKey_of (PublicKey_toBinary pub)) = PublicKey_id pub.
Proof. by destruct pub. Qed.

(** C3. Sign round trip: for every message and every key pair whose public
    key is derived from the private key, [signMessage] with both flags
    [true] returns a payload, and [verifyMessage] on that payload with the
    public key returns exactly the bytes of the message. *)
Theorem sign_verify_round_trip x b priv pub w :
  plain_bytes x = Some b ->
  key_pair priv pub ->
  exists payload,
    signMessage x priv (Some true) (Some true) w = (Ok payload, w)
    /\ verifyMessage payload pub w = (Ok (JBytes b), w).
Proof.
  intros Hx Hpub.
  destruct (signMessage_run x b priv pub (Some true) (Some true) w Hx Hpub)
    as (sig & payload & Hverify & Hsign & Hdec).
  exists payload. split; [done|]. simpl in Hdec.
  rewrite (verifyMessage_checked _ _ sig b _ _ Hdec), Hverify; [done|..].
  - by rewrite get_prop_fmap, signed_fields_sig.
  - by rewrite get_prop_fmap, signed_fields_m.
  - right. exists (PublicKey_toBinary pub).
    by rewrite get_prop_fmap, signed_fields_P, PublicKey_id_of.
Qed.

(** C10. The flags of [signMessage] default to [false]: the two-argument
    call returns a payload without [m] and without [P], and
    [verifyMessage] on it fails with the missing-message error, for the
    signer's own public key and for every other expected key. *)
Theorem default_flags_never_verify x b priv pub w :
  plain_bytes x = Some b ->
  key_pair priv pub ->
  exists payload,
    signMessage x priv None None w = (Ok payload, w)
    /\ verifyMessage payload pub w = (Throw message_missing, w)
    /\ forall expected w',
         verifyMessage payload expected w' = (Throw message_missing, w').
Proof.
  intros Hx Hpub.
  destruct (signMessage_run x b priv pub None None w Hx Hpub)
    as (sig & payload & _ & Hsign & Hdec).
  exists payload. split; [done|]. simpl in Hdec.
  assert (forall expected w',
    verifyMessage payload expected w' = (Throw message_missing, w')) as Hall.
  { intros expected w'.
    apply (verifyMessage_message_missing _ _ sig _ _ Hdec).
    - by rewrite get_prop_fmap, signed_fields_sig.
    - by rewrite get_prop_fmap, signed_fields_m.
    - left. by rewrite get_prop_fmap, signed_fields_P. }
  split; [apply Hall | exact Hall].
Qed.

(** C5. In [verifyMessage] an embedded public key [P] must have the KeyId
    of the expected key: a returned value implies it, and a different
    KeyId gives the key-mismatch error whatever the signature check would
    say (the world, and so the log of verification errors, is untouched).
    In particular a payload signed by A with both flags [true] and
    verified against a key B of another KeyId raises key-mismatch, not
    invalid-signature. *)
Theorem key_mismatch_before_signature_check :
  (forall payload decoded P expected w v w',
      cbor_decode payload = Ok decoded ->
      get_prop decoded "P" = JBytes P ->
      verifyMessage payload expected w = (Ok v, w') ->
      PublicKey_id (PublicKey_of P) = PublicKey_id expected)
  /\ (forall payload decoded sig P expected w,
      cbor_decode payload = Ok decoded ->
      get_prop decoded "sig" = JBytes sig ->
      get_prop decoded "m" = JUndefined
        \/ is_bytes (get_prop decoded "m") = true ->
      get_prop decoded "P" = JBytes P ->
      PublicKey_id (PublicKey_of P) <> PublicKey_id expected ->
      verifyMessage payload expected w = (Throw key_mismatch, w))
  /\ (forall x b privA pubA pubB w,
      plain_bytes x = Some b ->
      key_pair privA pubA ->
      PublicKey_id pubA <> PublicKey_id pubB ->
      exists payload,
        signMessage x privA (Some true) (Some true) w = (Ok payload, w)
        /\ verifyMessage payload pubB w = (Throw key_mismatch, w)
        /\ key_mismatch <> invalid_signature).
Proof.
  split; [|split].
  - intros payload decoded P expected w v w' Hdec HP Hrun.
    apply verifyMessage_inv in Hrun
      as (decoded' & sig & m & Hdec' & _ & _ & Hkey & _).
    rewrite Hdec in Hdec'. injection Hdec' as <-.
    destruct Hkey as [Hkey | (P' & Hkey & Hid)]; rewrite HP in Hkey;
      [discriminate | by injection Hkey as <-].
  - intros. by eapply verifyMessage_key_mismatch.
  - intros x b privA pubA pubB w Hx Hpub Hid.
    destruct (signMessage_run x b privA pubA (Some true) (Some true) w Hx Hpub)
      as (sig & payload & _ & Hsign & Hdec).
    exists payload. split; [done|]. simpl in Hdec. split; [|done].
    apply (verifyMessage_key_mismatch _ _ sig (PublicKey_toBinary pubA)
             _ _ Hdec).
    + by rewrite get_prop_fmap, signed_fields_sig.
    + right. by rewrite get_prop_fmap, signed_fields_m.
    + by rewrite get_prop_fmap, signed_fields_P.
    + by rewrite PublicKey_id_of.
Qed.
End Signing.

(** C6. [verifyMessage] requires the message: a payload whose decoded form
    has no field [m] (or that does not decode) fails with an error.  When
    the fields [sig] and [m] are byte sequences and the embedded key is
    accepted, the outcome is decided by the signature check: the bytes of
    [m] are returned when it succeeds, the invalid-signature error is raised
    when it answers [false]. Conversely every returned value is the field
    [m] of a payload whose signature check succeeded. *)
Theorem verifyMessage_requires_message `{Primitives} :
  (forall payload expected w,
      (forall decoded, cbor_decode payload = Ok decoded ->
                       get_prop decoded "m" = JUndefined) ->
      exists e, verifyMessage payload expected w = (Throw e, w))
  /\ (forall payload decoded sig m expected w,
      cbor_decode payload = Ok decoded ->
      get_prop decoded "sig" = JBytes sig ->
      get_prop decoded "m" = JBytes m ->
      key_accepted decoded expected ->
      (ed25519_verify sig m (PublicKey_toBinary expected) = Ok true ->
       verifyMessage payload expected w = (Ok (JBytes m), w))
      /\ (ed25519_verify sig m (PublicKey_toBinary expected) = Ok false ->
          verifyMessage payload expected w = (Throw invalid_signature, w)))
  /\ (forall payload expected w v w',
      verifyMessage payload expected w = (Ok v, w') ->
      exists decoded sig m,
        cbor_decode payload = Ok decoded
        /\ get_prop decoded "sig" = JBytes sig
        /\ get_prop decoded "m" = JBytes m
        /\ v = JBytes m
        /\ ed25519_verify sig m (PublicKey_toBinary expected) = Ok true).
Proof.
  split; [|split].
  - intros. by apply verifyMessage_needs_message.
  - intros payload decoded sig m expected w Hdec Hsig Hm Hkey.
    rewrite (verifyMessage_checked _ _ _ _ _ _ Hdec Hsig Hm Hkey).
    split; by intros ->.
  - intros payload expected w v w' Hrun.
    apply verifyMessage_inv in Hrun
      as (decoded & sig & m & ? & ? & ? & ? & ? & ? & ?).
    by exists decoded, sig, m.
Qed.

(** ** ECIES *)

Section Ecies.
Context `{Primitives}.

Lemma eciesDecrypt_run priv P_e N C w xpriv ss key aes :
  edwardsToMontgomeryPriv priv = Ok xpriv ->
  x25519_getSharedSecret xpriv P_e = Ok ss ->
  hkdf_sha256 ss None aes_key_info 32 = Ok key ->
  siv key N = Ok aes ->
  eciesDecrypt priv P_e N C w =
    match cipher_decrypt aes C with
    | Ok plaintext => (Ok plaintext, w)
    | Throw e =>
        (Throw authentication_failed,
         logged w "AES-SIV decryption failed:" e)
    end.
Proof.
  intros Hpriv Hss Hkey Haes.
  unfold eciesDecrypt, deriveAesKey. run_monad.
  rewrite Hpriv, Hss, Hkey, Haes.
  by destruct (cipher_decrypt aes C).
Qed.

(** A plaintext comes out of [eciesDecrypt] only through [aes.decrypt]. *)
Lemma eciesDecrypt_inv priv P_e N C w plaintext w' :
  eciesDecrypt priv P_e N C w = (Ok plaintext, w') ->
  exists xpriv ss key aes,
    edwardsToMontgomeryPriv priv = Ok xpriv
    /\ x25519_getSharedSecret xpriv P_e = Ok ss
    /\ hkdf_sha256 ss None aes_key_info 32 = Ok key
    /\ siv key N = Ok aes
    /\ cipher_decrypt aes C = Ok plaintext
    /\ w' = w.
Proof.
  unfold eciesDecrypt, deriveAesKey. run_monad.
  destruct (edwardsToMontgomeryPriv priv) as [xpriv|] eqn:Hq1; [|discriminate].
  destruct (x25519_getSharedSecret xpriv P_e) as [ss|] eqn:Hq2; [|discriminate].
  destruct (hkdf_sha256 ss None aes_key_info 32) as [key|] eqn:Hq3;
    [|discriminate].
  destruct (siv key N) as [aes|] eqn:Hq4; [|discriminate].
  destruct (cipher_decrypt aes C) as [pt|] eqn:Hpt; [|discriminate].
  intros [= <- <-]. by exists xpriv, ss, key, aes.
Qed.

Lemma decryptMessage_run payload decoded C P_e N priv w :
  cbor_decode payload = Ok decoded ->
  get_prop decoded "C" = JBytes C ->
  get_prop decoded "P_e" = JBytes P_e ->
  get_prop decoded "N" = JBytes N ->
  decryptMessage payload priv w
  = eciesDecrypt (PrivateKey_toBinary priv) P_e N C w.
Proof.
  intros Hdec HC HP HN.
  destruct (get_prop_bytes_object _ _ _ HC) as [o ->].
  unfold decryptMessage. run_monad. rewrite Hdec. simpl.
  by rewrite HC, HP, HN.
Qed.

Lemma decryptMessage_inv payload priv w plaintext w' :
  decryptMessage payload priv w = (Ok plaintext, w') ->
  exists decoded C P_e N,
    cbor_decode payload = Ok decoded
    /\ get_prop decoded "C" = JBytes C
    /\ get_prop decoded "P_e" = JBytes P_e
    /\ get_prop decoded "N" = JBytes N
    /\ eciesDecrypt (PrivateKey_toBinary priv) P_e N C w
       = (Ok plaintext, w').
Proof.
  unfold decryptMessage. run_monad.
  destruct (cbor_decode payload) as [decoded|]; [|discriminate].
  destruct decoded as [| | | | | |l|o]; simpl; try discriminate.
  destruct (get_prop (JObject o) "C") as [| | | | |C| |] eqn:HC;
    simpl; try discriminate.
  destruct (get_prop (JObject o) "P_e") as [| | | | |P_e| |] eqn:HP;
    simpl; try discriminate.
  destruct (get_prop (JObject o) "N") as [| | | | |N| |] eqn:HN;
    simpl; try discriminate.
  intros Hrun. by exists (JObject o), C, P_e, N.
Qed.

(** [eciesEncrypt] returns only after both draws and every step. *)
Lemma eciesEncrypt_inv pub msg w envelope w' :
  eciesEncrypt pub msg w = (Ok envelope, w') ->
  exists xpub e g1 E ss key nonce g2 aes C,
    edwardsToMontgomeryPub pub = Ok xpub
    /\ x25519_randomPrivateKey (entropy w) = (Ok e, g1)
    /\ x25519_getPublicKey e = Ok E
    /\ x25519_getSharedSecret e xpub = Ok ss
    /\ hkdf_sha256 ss None aes_key_info 32 = Ok key
    /\ randomBytes 12 g1 = (Ok nonce, g2)
    /\ siv key nonce = Ok aes
    /\ cipher_encrypt aes msg = Ok C
    /\ envelope = ecies_object C E nonce
    /\ w' = drawn w g2.
Proof.
  unfold eciesEncrypt, deriveAesKey. run_monad.
  destruct (edwardsToMontgomeryPub pub) as [xpub|] eqn:Hq5; [|discriminate].
  destruct (x25519_randomPrivateKey (entropy w)) as [[e|] g1] eqn:Hq6;
    [|discriminate].
  destruct (x25519_getPublicKey e) as [E|] eqn:Hq7; [|discriminate].
  destruct (x25519_getSharedSecret e xpub) as [ss|] eqn:Hq8; [|discriminate].
  destruct (hkdf_sha256 ss None aes_key_info 32) as [key|] eqn:Hq9;
    [|discriminate].
  simpl.
  destruct (randomBytes 12 g1) as [[nonce|] g2] eqn:Hq10; [|discriminate].
  destruct (siv key nonce) as [aes|] eqn:Hq11; [|discriminate].
  destruct (cipher_encrypt aes msg) as [C|] eqn:Hq12; [|discriminate].
  intros [= <- <-]. by exists xpub, e, g1, E, ss, key, nonce, g2, aes, C.
Qed.

Lemma eciesEncrypt_run pub msg w xpub e g1 E ss key nonce g2 aes C :
  edwardsToMontgomeryPub pub = Ok xpub ->
  x25519_randomPrivateKey (entropy w) = (Ok e, g1) ->
  x25519_getPublicKey e = Ok E ->
  x25519_getSharedSecret e xpub = Ok ss ->
  hkdf_sha256 ss None aes_key_info 32 = Ok key ->
  randomBytes 12 g1 = (Ok nonce, g2) ->
  siv key nonce = Ok aes ->
  cipher_encrypt aes msg = Ok C ->
  eciesEncrypt pub msg w = (Ok (ecies_object C E nonce), drawn w g2).
Proof.
  intros Hxpub He HE Hss Hkey Hnonce Haes HC.
  unfold eciesEncrypt, deriveAesKey. run_monad.
  rewrite Hxpub, He, HE, Hss, Hkey. simpl.
  by rewrite Hnonce, Haes, HC.
Qed.
End Ecies.

(** ** Encrypting and decrypting *)

Section Encryption.
Context `{Primitives}.

(** Contract of the conversions: the two representations of a signing key
    pair form a key-agreement key pair. *)
Hypothesis montgomery_key_pair : forall priv pub,
  ed25519_getPublicKey priv = Ok pub ->
  exists xpriv xpub,
    edwardsToMontgomeryPriv priv = Ok xpriv
    /\ edwardsToMontgomeryPub pub = Ok xpub
    /\ x25519_getPublicKey xpriv = Ok xpub.

(** Contract of X25519: a generated private key has a public key, and the
    two sides of an exchange compute the same secret. *)
Hypothesis ephemeral_public_key : forall g e g',
  x25519_randomPrivateKey g = (Ok e, g') ->
  exists E, x25519_getPublicKey e = Ok E.

Hypothesis x25519_agreement : forall a A b B,
  x25519_getPublicKey a = Ok A ->
  x25519_getPublicKey b = Ok B ->
  exists ss, x25519_getSharedSecret a B = Ok ss
             /\ x25519_getSharedSecret b A = Ok ss.

(** Contract of HKDF: up to [255 * 32] bytes are derived, as many as asked. *)
Hypothesis hkdf_length : forall ikm salt info n,
  n <= 255 * 32 ->
  exists key, hkdf_sha256 ikm salt info n = Ok key /\ length key = n.

(** Contract of the random source: it returns as many bytes as asked. *)
Hypothesis randomBytes_length : forall n g b g',
  randomBytes n g = (Ok b, g') -> length b = n.

(** Contract of the cipher: under a 32-byte key and a 12-byte nonce it
    encrypts every message, and decrypts the result to that message. *)
Hypothesis siv_correct : forall key nonce,
  length key = 32 ->
  length nonce = 12 ->
  exists aes,
    siv key nonce = Ok aes
    /\ forall msg, exists C,
         cipher_encrypt aes msg = Ok C /\ cipher_decrypt aes C = Ok msg.

Hypothesis cbor_round_trip : forall o : gmap string bytes,
  dom o ⊆ wire_fields ->
  exists b, cbor_encode (JObject (JBytes <$> o)) = Ok b
            /\ cbor_decode b = Ok (JObject (JBytes <$> o)).

(** One encryption for a recipient, followed through: the envelope, and
    what the recipient's [eciesDecrypt] makes of it in any world. *)
Lemma ecies_round_trip priv pub msg w e g1 nonce g2 :
  ed25519_getPublicKey priv = Ok pub ->
  x25519_randomPrivateKey (entropy w) = (Ok e, g1) ->
  randomBytes 12 g1 = (Ok nonce, g2) ->
  exists C E,
    eciesEncrypt pub msg w = (Ok (ecies_object C E nonce), drawn w g2)
    /\ x25519_getPublicKey e = Ok E
    /\ length nonce = 12
    /\ forall w', eciesDecrypt priv E nonce C w' = (Ok msg, w').
Proof.
  intros Hpub He Hnonce.
  destruct (montgomery_key_pair _ _ Hpub)
    as (xpriv & xpub & Hxpriv & Hxpub & Hx).
  destruct (ephemeral_public_key _ _ _ He) as (E & HE).
  destruct (x25519_agreement _ _ _ _ HE Hx) as (ss & Hss & Hss').
  destruct (hkdf_length ss None aes_key_info 32) as (key & Hkey & Hlen);
    [lia|].
  pose proof (randomBytes_length _ _ _ _ Hnonce) as Hn.
  destruct (siv_correct key nonce Hlen Hn) as (aes & Haes & Hmsg).
  destruct (Hmsg msg) as (C & HC & HC').
  exists C, E. split; [|split; [done|split; [done|]]].
  - by eapply eciesEncrypt_run.
  - intros w'.
    by rewrite (eciesDecrypt_run _ _ _ _ _ _ _ _ _ Hxpriv Hss' Hkey Haes), HC'.
Qed.

Lemma encrypt_round_trip x b priv pub w e g1 nonce g2 :
  plain_bytes x = Some b ->
  key_pair priv pub ->
  x25519_randomPrivateKey (entropy w) = (Ok e, g1) ->
  randomBytes 12 g1 = (Ok nonce, g2) ->
  exists payload,
    encryptMessage x pub w = (Ok payload, drawn w g2)
    /\ forall w', decryptMessage payload priv w' = (Ok b, w').
Proof.
  intros Hx Hpub He Hnonce.
  destruct (ecies_round_trip _ _ b w _ _ _ _ Hpub He Hnonce)
    as (C & E & Henc & _ & _ & Hdecrypt).
  destruct (cbor_round_trip _ (ecies_fields_wire C E nonce))
    as (payload & Hencode & Hdecode).
  exists payload. split.
  - unfold encryptMessage.
    rewrite (bind_ok _ _ _ _ _ (to_Message_bytes _ _ w Hx)). simpl.
    rewrite (bind_ok _ _ _ _ _ Henc).
    unfold lift. by rewrite ecies_object_fields, Hencode.
  - intros w'.
    destruct (ecies_fields_lookup C E nonce) as (HC & HE & HN).
    rewrite (decryptMessage_run _ _ C E nonce _ _ Hdecode);
      rewrite ?get_prop_fmap, ?HC, ?HE, ?HN; done.
Qed.

(** C2. Encrypt round trip: for every message and every key pair whose
    public key is derived from the private key, [encryptMessage] returns a
    payload (the random source delivering the ephemeral key and the
    nonce), and [decryptMessage] on it with the private key returns
    exactly the bytes of the message. *)
Theorem encrypt_decrypt_round_trip x b priv pub w e g1 nonce g2 :
  plain_bytes x = Some b ->
  key_pair priv pub ->
  x25519_randomPrivateKey (entropy w) = (Ok e, g1) ->
  randomBytes 12 g1 = (Ok nonce, g2) ->
  exists payload w',
    encryptMessage x pub w = (Ok payload, w')
    /\ decryptMessage payload priv w' = (Ok b, w').
Proof.
  intros Hx Hpub He Hnonce.
  destruct (encrypt_round_trip _ _ _ _ _ _ _ _ _ Hx Hpub He Hnonce)
    as (payload & Henc & Hdec).
  by exists payload, (drawn w g2).
Qed.

Hypothesis ed25519_correct : forall priv pub msg,
  ed25519_getPublicKey priv = Ok pub ->
  exists sig, ed25519_sign msg priv = Ok sig
              /\ ed25519_verify sig msg pub = Ok true.

(** C1. Sign-encrypt round trip: for every message and every two key
    pairs, [signAndEncryptMessage] to the recipient returns a payload, and
    [decryptAndVerifyMessage] on it with the recipient's private key and
    the sender's public key returns exactly the bytes of the message;
    with the sender's public key embedded (the default) or not. *)
Theorem sign_encrypt_round_trip
    x b senderPriv senderPub recipPriv recipPub include w e g1 nonce g2 :
  plain_bytes x = Some b ->
  key_pair senderPriv senderPub ->
  key_pair recipPriv recipPub ->
  x25519_randomPrivateKey (entropy w) = (Ok e, g1) ->
  randomBytes 12 g1 = (Ok nonce, g2) ->
  exists payload w',
    signAndEncryptMessage x senderPriv recipPub include w = (Ok payload, w')
    /\ decryptAndVerifyMessage payload recipPriv senderPub w'
       = (Ok (JBytes b), w').
Proof.
  intros Hx Hsender Hrecip He Hnonce.
  destruct (signMessage_run ed25519_correct cbor_round_trip x b senderPriv
              senderPub (Some true) (Some (default true include)) w Hx Hsender)
    as (sig & signed & Hverify & Hsign & Hdec).
  destruct (encrypt_round_trip (PlainValue (JBytes signed)) signed
              recipPriv recipPub w e g1 nonce g2 eq_refl Hrecip He Hnonce)
    as (payload & Henc & Hdecrypt).
  exists payload, (drawn w g2). split.
  - unfold signAndEncryptMessage. by rewrite (bind_ok _ _ _ _ _ Hsign).
  - unfold decryptAndVerifyMessage.
    rewrite (bind_ok _ _ _ _ _ (Hdecrypt _)).
    simpl in Hdec.
    rewrite (verifyMessage_checked _ _ sig b _ _ Hdec), Hverify; [done|..].
    + by rewrite get_prop_fmap, signed_fields_sig.
    + by rewrite get_prop_fmap, signed_fields_m.
    + unfold key_accepted. rewrite get_prop_fmap, signed_fields_P.
      destruct (default true include); simpl; [right | by left].
      exists (PublicKey_toBinary senderPub). by rewrite PublicKey_id_of.
Qed.

(** C7. Every call of [eciesEncrypt] that returns has drawn an ephemeral
    private key and then a 12-byte nonce from the random source, leaving
    the source past both draws; has derived the 32-byte key from the raw
    shared secret by HKDF with no salt and the label
    [suite25519-aes-key]; and returns an object whose fields [C], [P_e]
    and [N] hold the ciphertext, the ephemeral public key and the nonce.
    For a recipient key that belongs to a key pair the call returns
    whenever the random source delivers. *)
Theorem eciesEncrypt_fresh_envelope :
  (forall pub msg w envelope w',
      eciesEncrypt pub msg w = (Ok envelope, w') ->
      exists xpub e g1 E ss key nonce g2 aes C,
        x25519_randomPrivateKey (entropy w) = (Ok e, g1)
        /\ x25519_getPublicKey e = Ok E
        /\ randomBytes 12 g1 = (Ok nonce, g2)
        /\ length nonce = 12
        /\ w' = drawn w g2
        /\ edwardsToMontgomeryPub pub = Ok xpub
        /\ x25519_getSharedSecret e xpub = Ok ss
        /\ hkdf_sha256 ss None (TextEncoder_encode "suite25519-aes-key") 32
           = Ok key
        /\ length key = 32
        /\ siv key nonce = Ok aes
        /\ cipher_encrypt aes msg = Ok C
        /\ envelope = ecies_object C E nonce
        /\ get_prop envelope "C" = JBytes C
        /\ get_prop envelope "P_e" = JBytes E
        /\ get_prop envelope "N" = JBytes nonce)
  /\ (forall priv pub msg w e g1 nonce g2,
      ed25519_getPublicKey priv = Ok pub ->
      x25519_randomPrivateKey (entropy w) = (Ok e, g1) ->
      randomBytes 12 g1 = (Ok nonce, g2) ->
      exists envelope, eciesEncrypt pub msg w = (Ok envelope, drawn w g2)).
Proof.
  split.
  - intros pub msg w envelope w' Hrun.
    apply eciesEncrypt_inv in Hrun
      as (xpub & e & g1 & E & ss & key & nonce & g2 & aes & C
          & Hxpub & He & HE & Hss & Hkey & Hnonce & Haes & HC & -> & ->).
    exists xpub, e, g1, E, ss, key, nonce, g2, aes, C.
    destruct (hkdf_length ss None aes_key_info 32) as (key' & Hkey' & Hlen);
      [lia|].
    rewrite Hkey in Hkey'. injection Hkey' as <-.
    destruct (ecies_fields_lookup C E nonce) as (HfC & HfE & HfN).
    rewrite ecies_object_fields, !get_prop_fmap, HfC, HfE, HfN.
    repeat split; try done. by eapply randomBytes_length.
  - intros priv pub msg w e g1 nonce g2 Hpub He Hnonce.
    destruct (ecies_round_trip _ _ msg w _ _ _ _ Hpub He Hnonce)
      as (C & E & Henc & _).
    eauto.
Qed.
End Encryption.

(** C4. When the cipher rejects the ciphertext under the key the recipient
    derives (a flipped bit, or a private key that is not the recipient's),
    [decryptMessage] throws one fixed error, the same whatever the cipher
    threw and whichever of key, nonce and ciphertext was wrong; and a
    plaintext is returned only if the cipher accepted the ciphertext. *)
Theorem decrypt_authentication_failure `{Primitives} :
  (forall payload decoded C P_e N priv w xpriv ss key aes e,
      cbor_decode payload = Ok decoded ->
      get_prop decoded "C" = JBytes C ->
      get_prop decoded "P_e" = JBytes P_e ->
      get_prop decoded "N" = JBytes N ->
      edwardsToMontgomeryPriv (PrivateKey_toBinary priv) = Ok xpriv ->
      x25519_getSharedSecret xpriv P_e = Ok ss ->
      hkdf_sha256 ss None aes_key_info 32 = Ok key ->
      siv key N = Ok aes ->
      cipher_decrypt aes C = Throw e ->
      decryptMessage payload priv w
      = (Throw authentication_failed,
         logged w "AES-SIV decryption failed:" e))
  /\ (forall payload priv w plaintext w',
      decryptMessage payload priv w = (Ok plaintext, w') ->
      exists decoded C P_e N xpriv ss key aes,
        cbor_decode payload = Ok decoded
        /\ get_prop decoded "C" = JBytes C
        /\ get_prop decoded "P_e" = JBytes P_e
        /\ get_prop decoded "N" = JBytes N
        /\ edwardsToMontgomeryPriv (PrivateKey_toBinary priv) = Ok xpriv
        /\ x25519_getSharedSecret xpriv P_e = Ok ss
        /\ hkdf_sha256 ss None aes_key_info 32 = Ok key
        /\ siv key N = Ok aes
        /\ cipher_decrypt aes C = Ok plaintext)
  /\ authentication_failed
     = Error ("eciesDecrypt failed: Decryption failed "
              +:+ "(authentication tag mismatch or other error)").
Proof.
  split; [|split; [|reflexivity]].
  - intros payload decoded C P_e N priv w xpriv ss key aes e
      Hdec HC HP HN Hxpriv Hss Hkey Haes Hreject.
    rewrite (decryptMessage_run _ _ _ _ _ _ _ Hdec HC HP HN).
    by rewrite (eciesDecrypt_run _ _ _ _ _ _ _ _ _ Hxpriv Hss Hkey Haes),
      Hreject.
  - intros payload priv w plaintext w' Hrun.
    apply decryptMessage_inv in Hrun
      as (decoded & C & P_e & N & Hdec & HC & HP & HN & Hrun).
    apply eciesDecrypt_inv in Hrun
      as (xpriv & ss & key & aes & ? & ? & ? & ? & ? & _).
    by exists decoded, C, P_e, N, xpriv, ss, key, aes.
Qed.

(** ** Key identifiers *)

Lemma byte_to_hex_lower b : all_lower_hex (byte_to_hex b) = true.
Proof. by destruct b. Qed.

Lemma bytesToHex_cons b l :
  bytesToHex (b :: l) =
  String (hex_digit (Byte.to_N b / 16))
    (String (hex_digit (Byte.to_N b mod 16)) (bytesToHex l)).
Proof. reflexivity. Qed.

Lemma unhex_hex_digits b :
  Byte.of_N (16 * hex_value (hex_digit (Byte.to_N b / 16))
             + hex_value (hex_digit (Byte.to_N b mod 16))) = Some b.
Proof. by destruct b. Qed.

Lemma unhex_bytesToHex l : unhex (bytesToHex l) = l.
Proof.
  induction l as [|b l IH]; [done|].
  rewrite bytesToHex_cons. simpl unhex. by rewrite unhex_hex_digits, IH.
Qed.

Lemma bytesToHex_length l : String.length (bytesToHex l) = 2 * length l.
Proof.
  induction l as [|b l IH]; [done|].
  rewrite bytesToHex_cons. simpl. rewrite IH. lia.
Qed.

Lemma bytesToHex_lower l : all_lower_hex (bytesToHex l) = true.
Proof.
  induction l as [|b l IH]; [done|].
  rewrite bytesToHex_cons. simpl all_lower_hex. rewrite IH.
  pose proof (byte_to_hex_lower b) as Hb. unfold byte_to_hex in Hb.
  simpl in Hb. rewrite andb_true_r in Hb. by rewrite andb_true_r.
Qed.

(** C8. The KeyId of a public key is [bytesToHex] of the RIPEMD-160 digest
    of its bytes: 40 characters, all in [0-9a-f], two per digest byte; it
    is a function of the key bytes alone, and two keys have the same KeyId
    exactly when their digests are equal. *)
Theorem key_id_is_hex_of_digest `{Primitives} :
  (forall data, length (ripemd160 data) = 20) ->
  forall pub,
    PublicKey_id pub = bytesToHex (ripemd160 (PublicKey_toBinary pub))
    /\ String.length (PublicKey_id pub) = 40
    /\ all_lower_hex (PublicKey_id pub) = true
    /\ (forall pub',
          PublicKey_toBinary pub' = PublicKey_toBinary pub ->
          PublicKey_id pub' = PublicKey_id pub)
    /\ (forall pub',
          PublicKey_id pub' = PublicKey_id pub <->
          ripemd160 (PublicKey_toBinary pub')
          = ripemd160 (PublicKey_toBinary pub)).
Proof.
  intros Hlen pub. unfold PublicKey_id. repeat split.
  - by rewrite bytesToHex_length, Hlen.
  - apply bytesToHex_lower.
  - by intros pub' ->.
  - intros Heq. by rewrite <- (unhex_bytesToHex (ripemd160 _)), Heq,
      unhex_bytesToHex.
  - by intros ->.
Qed.

Example bytesToHex_sample : bytesToHex [x00; x1a; xff; x90] = "001aff90".
Proof. reflexivity. Qed.

(** ** How errors reach the caller *)

Section Errors.
Context `{Primitives}.

Lemma destructure_run decoded w :
  destructure decoded w =
    if is_nullish decoded then (Throw (destructure_error decoded), w)
    else (Ok tt, w).
Proof. by destruct decoded. Qed.

Lemma first_bad_field_None decoded :
  first_bad_field decoded = None ->
  exists C P_e N,
    get_prop decoded "C" = JBytes C
    /\ get_prop decoded "P_e" = JBytes P_e
    /\ get_prop decoded "N" = JBytes N.
Proof.
  unfold first_bad_field.
  destruct (get_prop decoded "C") as [| | | | |C| |]; try discriminate.
  destruct (get_prop decoded "P_e") as [| | | | |P_e| |]; try discriminate.
  destruct (get_prop decoded "N") as [| | | | |N| |]; try discriminate.
  intros _. by exists C, P_e, N.
Qed.
















End Errors.

(** ** The small instance meets the contracts *)

Section ToyFacts.
Import Toy.

Lemma byte_of_N_value n : Byte.to_N (byte_of_N n) = (n mod 256)%N.
Proof.
  unfold byte_of_N.
  destruct (Byte.of_N (n mod 256)) as [b|] eqn:Hb.
  - by apply Byte.to_of_N.
  - apply Byte.of_N_None_iff in Hb.
    pose proof (N.mod_upper_bound n 256). lia.
Qed.

Lemma byte_of_N_mod n : byte_of_N (n mod 256) = byte_of_N n.
Proof. unfold byte_of_N. by rewrite N.Div0.mod_mod. Qed.

Lemma byte_mul_exchange a b :
  byte_mul a (byte_mul x03 b) = byte_mul b (byte_mul x03 a).
Proof.
  unfold byte_mul. rewrite !byte_of_N_value.
  rewrite <- (byte_of_N_mod (_ * (_ mod 256))).
  rewrite <- (byte_of_N_mod (Byte.to_N b * _)).
  rewrite !N.Div0.mul_mod_idemp_r. f_equal. f_equal. lia.
Qed.

Lemma shared_secret_exchange (a b : bytes) :
  zip_with byte_mul a (map (byte_mul x03) b)
  = zip_with byte_mul b (map (byte_mul x03) a).
Proof.
  revert b. induction a as [|x a IH]; intros [|y b]; simpl; try done.
  by rewrite byte_mul_exchange, IH.
Qed.

Lemma digest_length n l : length (digest n l) = n.
Proof.
  unfold digest. rewrite length_take. simpl.
  rewrite length_app, length_replicate. lia.
Qed.

Lemma has_length_true n l : has_length n l = true <-> length l = n.
Proof. unfold has_length. apply Nat.eqb_eq. Qed.

Lemma public_of_inv priv pub :
  public_of priv = Ok pub ->
  length priv = 32 /\ pub = map (byte_mul x03) priv /\ length pub = 32.
Proof.
  unfold public_of. destruct (has_length 32 priv) eqn:Hlen; [|discriminate].
  apply has_length_true in Hlen. intros [= <-].
  by rewrite length_map.
Qed.

Lemma toy_ed25519_correct priv pub msg :
  public_of priv = Ok pub ->
  exists sig, sign msg priv = Ok sig /\ verify sig msg pub = Ok true.
Proof.
  intros (Hpriv & -> & Hpub)%public_of_inv.
  exists (map (byte_mul x03) priv ++ digest 32 msg).
  unfold sign, verify.
  rewrite (proj2 (has_length_true 32 priv) Hpriv).
  rewrite (proj2 (has_length_true 32 _) Hpub).
  rewrite (proj2 (has_length_true 64 _)).
  - by rewrite bool_decide_eq_true_2.
  - rewrite length_app, Hpub, digest_length. lia.
Qed.

Lemma toy_montgomery_key_pair priv pub :
  public_of priv = Ok pub ->
  exists xpriv xpub,
    to_montgomery priv = Ok xpriv
    /\ to_montgomery pub = Ok xpub
    /\ public_of xpriv = Ok xpub.
Proof.
  intros Hpub. pose proof Hpub as (Hlen & _ & Hlen')%public_of_inv.
  exists priv, pub. unfold to_montgomery.
  rewrite (proj2 (has_length_true 32 priv) Hlen).
  by rewrite (proj2 (has_length_true 32 pub) Hlen').
Qed.

Lemma toy_ephemeral_public_key (g : nat) e g' :
  fresh 32 g = (Ok e, g') -> exists E, public_of e = Ok E.
Proof.
  intros [= <- _]. by eexists.
Qed.

Lemma toy_x25519_agreement a A b B :
  public_of a = Ok A ->
  public_of b = Ok B ->
  exists ss, shared_secret a B = Ok ss /\ shared_secret b A = Ok ss.
Proof.
  intros (Ha & -> & HA)%public_of_inv (Hb & -> & HB)%public_of_inv.
  unfold shared_secret.
  rewrite !(proj2 (has_length_true 32 _)) by done. simpl.
  rewrite (shared_secret_exchange a b). eauto.
Qed.

Lemma toy_hkdf_length ikm salt info n :
  n <= 255 * 32 ->
  exists key, hkdf ikm salt info n = Ok key /\ length key = n.
Proof.
  intros Hn. unfold hkdf.
  destruct (Nat.leb_spec n (255 * 32)); [|lia].
  eexists. split; [done|]. apply digest_length.
Qed.

Lemma toy_randomBytes_length n (g : nat) b g' :
  fresh n g = (Ok b, g') -> length b = n.
Proof. intros [= <- _]. apply length_replicate. Qed.

Lemma toy_siv_correct key nonce :
  length key = 32 ->
  length nonce = 12 ->
  exists aes,
    new_cipher key nonce = Ok aes
    /\ forall msg, exists C, encrypt aes msg = Ok C /\ decrypt aes C = Ok msg.
Proof.
  intros Hkey Hnonce. exists (key, nonce). split.
  - unfold new_cipher.
    by rewrite !(proj2 (has_length_true _ _)) by done.
  - intros msg. exists (msg ++ tag (key, nonce) msg). split; [done|].
    unfold decrypt.
    assert (length (tag (key, nonce) msg) = 16) as Htag
      by apply digest_length.
    rewrite length_app, Htag.
    replace (length msg + 16 - 16) with (length msg) by lia.
    rewrite take_app_length, drop_app_length.
    rewrite bool_decide_eq_true_2 by done.
    by destruct (Nat.leb_spec 16 (length msg + 16)); [|lia].
Qed.

Lemma toy_ripemd160_length data : length (digest 20 data) = 20.
Proof. apply digest_length. Qed.

Lemma write_bytes_cons x b : write_bytes (x :: b) = x01 :: x :: write_bytes b.
Proof. reflexivity. Qed.

Lemma read_write_bytes b rest :
  read_bytes (write_bytes b ++ rest) = Some (b, rest).
Proof.
  induction b as [|x b IH]; [done|].
  rewrite write_bytes_cons. simpl. by rewrite IH.
Qed.

Lemma write_fields_cons f fs :
  write_fields (f :: fs)
  = x01 :: write_bytes (String.list_byte_of_string f.1)
      ++ write_bytes f.2 ++ write_fields fs.
Proof.
  unfold write_fields, write_field. simpl.
  by rewrite <- !app_assoc.
Qed.

Lemma write_fields_longer fs : length fs < length (write_fields fs).
Proof.
  induction fs as [|f fs IH]; [simpl; lia|].
  rewrite write_fields_cons. simpl. rewrite !length_app. lia.
Qed.

Lemma read_write_fields fs fuel :
  length fs < fuel -> read_fields fuel (write_fields fs) = Some fs.
Proof.
  revert fuel. induction fs as [|[k v] fs IH]; intros [|fuel] Hfuel;
    try (simpl in Hfuel; lia); [done|].
  rewrite write_fields_cons. simpl.
  rewrite read_write_bytes, read_write_bytes.
  rewrite IH by (simpl in Hfuel; lia).
  by rewrite String.string_of_list_byte_of_string.
Qed.

Lemma mapM_field_bytes (l : list (string * jsval)) :
  Forall (fun f => is_bytes f.2 = true) l ->
  exists fs, mapM field_bytes l = Some fs /\ field_value <$> fs = l.
Proof.
  induction 1 as [|[k v] l Hv _ (fs & Hfs & <-)]; [by exists []|].
  destruct v; try discriminate.
  exists ((k, b) :: fs). simpl. by rewrite Hfs.
Qed.

Lemma toy_cbor_round_trip (o : gmap string bytes) :
  dom o ⊆ wire_fields ->
  exists b, encode (JObject (JBytes <$> o)) = Ok b
            /\ decode b = Ok (JObject (JBytes <$> o)).
Proof.
  intros _.
  destruct (mapM_field_bytes (map_to_list (JBytes <$> o)))
    as (fs & Hfs & Hl).
  { apply Forall_forall. intros [k v] Hkv. simpl.
    apply elem_of_map_to_list in Hkv. rewrite lookup_fmap in Hkv.
    destruct (o !! k); simpl in Hkv; by simplify_eq. }
  exists (write_fields fs). unfold encode, decode. rewrite Hfs.
  split; [done|].
  rewrite read_write_fields by apply write_fields_longer.
  by rewrite Hl, list_to_map_to_list.
Qed.
End ToyFacts.

(** ** The theorems at work on the small instance *)

Ltac toy_contract :=
  first [ exact toy_ed25519_correct | exact toy_cbor_round_trip
        | exact toy_montgomery_key_pair | exact toy_ephemeral_public_key
        | exact toy_x25519_agreement | exact toy_hkdf_length
        | exact toy_randomBytes_length | exact toy_siv_correct
        | exact toy_ripemd160_length ].

Section Instances.
Import Toy.

Lemma sign_verify_round_trip_witness :
  key_pair alice alice_pub
  /\ exists payload,
       signMessage (PlainValue (JString "Hello, World!")) alice
         (Some true) (Some true) w0 = (Ok payload, w0)
       /\ verifyMessage payload alice_pub w0 = (Ok (JBytes hello), w0).
Proof.
  split; [reflexivity|].
  apply (sign_verify_round_trip (H := primitives)
           toy_ed25519_correct toy_cbor_round_trip);
    reflexivity.
Defined.

Lemma default_flags_never_verify_witness :
  exists payload,
    signMessage (PlainValue (JBytes hello)) alice None None w0
    = (Ok payload, w0)
    /\ verifyMessage payload alice_pub w0 = (Throw message_missing, w0)
    /\ forall expected w',
         verifyMessage payload expected w' = (Throw message_missing, w').
Proof.
  apply (default_flags_never_verify (H := primitives)
           toy_ed25519_correct toy_cbor_round_trip
           _ hello alice alice_pub); reflexivity.
Defined.

Lemma key_mismatch_before_signature_check_witness :
  PublicKey_id alice_pub <> PublicKey_id bob_pub
  /\ exists payload,
       signMessage (PlainValue (JBytes hello)) alice (Some true) (Some true) w0
       = (Ok payload, w0)
       /\ verifyMessage payload bob_pub w0 = (Throw key_mismatch, w0)
       /\ key_mismatch <> invalid_signature.
Proof.
  assert (PublicKey_id alice_pub <> PublicKey_id bob_pub) as Hid
    by (vm_compute; discriminate).
  split; [exact Hid|].
  apply (proj2 (proj2 (key_mismatch_before_signature_check
                         (H := primitives)
                         toy_ed25519_correct toy_cbor_round_trip))
           (PlainValue (JBytes hello)) hello alice alice_pub bob_pub w0);
    [reflexivity | reflexivity | exact Hid].
Defined.

Lemma verifyMessage_requires_message_witness :
  (exists e, verifyMessage detached alice_pub w0 = (Throw e, w0))
  /\ verifyMessage forged alice_pub w0 = (Throw invalid_signature, w0).
Proof.
  split.
  - apply (proj1 verifyMessage_requires_message).
    intros decoded Hdec. vm_compute in Hdec. by injection Hdec as <-.
  - eapply (proj1 (proj2 verifyMessage_requires_message)).
    + vm_compute. reflexivity.
    + vm_compute. reflexivity.
    + vm_compute. reflexivity.
    + left. vm_compute. reflexivity.
    + vm_compute. reflexivity.
Defined.

Lemma encrypt_decrypt_round_trip_witness :
  key_pair bob bob_pub
  /\ exists payload w',
       encryptMessage (PlainValue (JString "Secret Message")) bob_pub w0
       = (Ok payload, w')
       /\ decryptMessage payload bob w' = (Ok secret, w').
Proof.
  split; [reflexivity|].
  eapply (encrypt_decrypt_round_trip (H := primitives));
    first [toy_contract | reflexivity].
Defined.

Lemma sign_encrypt_round_trip_witness :
  key_pair alice alice_pub /\ key_pair bob bob_pub
  /\ exists payload w',
       signAndEncryptMessage (PlainValue (JString "Hello, World!")) alice
         bob_pub None w0 = (Ok payload, w')
       /\ decryptAndVerifyMessage payload bob alice_pub w'
          = (Ok (JBytes hello), w').
Proof.
  split; [reflexivity|]. split; [reflexivity|].
  eapply (sign_encrypt_round_trip (H := primitives));
    first [toy_contract | reflexivity].
Defined.

Lemma eciesEncrypt_fresh_envelope_witness :
  exists envelope,
    eciesEncrypt (PublicKey_toBinary bob_pub) secret w0
    = (Ok envelope, drawn w0 9)
    /\ length (field_of envelope "N") = 12.
Proof.
  pose proof (eciesEncrypt_fresh_envelope (H := primitives)
                toy_montgomery_key_pair toy_ephemeral_public_key
                toy_x25519_agreement toy_hkdf_length toy_randomBytes_length
                toy_siv_correct) as [Hevery Hreturns].
  destruct (Hreturns (PrivateKey_toBinary bob) (PublicKey_toBinary bob_pub)
              secret w0 _ _ _ 9 eq_refl eq_refl eq_refl)
    as (envelope & Hrun).
  exists envelope. split; [exact Hrun|].
  destruct (Hevery _ _ _ _ _ Hrun)
    as (xpub & e & g1 & E & ss & key & nonce & g2 & aes & C
        & _ & _ & _ & Hlen & _ & _ & _ & _ & _ & _ & _ & _ & _ & _ & HN).
  unfold field_of. rewrite HN. exact Hlen.
Defined.

Lemma decrypt_authentication_failure_witness :
  decryptMessage tampered bob w2
  = (Throw authentication_failed,
     logged w2 "AES-SIV decryption failed:" (Error "invalid tag"))
  /\ decryptMessage sealed alice w2
     = (Throw authentication_failed,
        logged w2 "AES-SIV decryption failed:" (Error "invalid tag")).
Proof.
  split; eapply (proj1 decrypt_authentication_failure);
    vm_compute; reflexivity.
Defined.

Lemma key_id_is_hex_of_digest_witness :
  PublicKey_id alice_pub = "e00f0f0f0f0f0f0f0f0f0f0f0f0f0f0f0f0f0f0f"
  /\ String.length (PublicKey_id alice_pub) = 40
  /\ all_lower_hex (PublicKey_id alice_pub) = true.
Proof.
  split; [reflexivity|].
  split;
    apply (key_id_is_hex_of_digest (H := primitives) toy_ripemd160_length
             alice_pub).
Defined.


End Instances.


(** * More of the module *)

(** ** Payloads that are not envelopes *)

Section Shapes.
Context `{Primitives}.

Lemma assertType_Uint8Array_run name v w :
  assertType_Uint8Array name v w =
    match v with
    | JBytes b => (Ok b, w)
    | _ => (Throw (not_Uint8Array_error name (type_label v)), w)
    end.
Proof. by destruct v. Qed.

Lemma PrivateKey_decrypt_run payload decoded C P_e N priv w :
  cbor_decode payload = Ok decoded ->
  get_prop decoded "C" = JBytes C ->
  get_prop decoded "P_e" = JBytes P_e ->
  get_prop decoded "N" = JBytes N ->
  PrivateKey_decrypt priv payload w =
    match eciesDecrypt (PrivateKey_toBinary priv) P_e N C w with
    | (Ok plaintext, w') => (Ok (Message_of plaintext), w')
    | (Throw e, w') => (Throw e, w')
    end.
Proof.
  intros Hdec HC HP HN.
  destruct (get_prop_bytes_object _ _ _ HC) as [o ->].
  unfold PrivateKey_decrypt. run_monad. rewrite Hdec. simpl.
  rewrite HC, HP, HN. simpl.
  by destruct (eciesDecrypt _ _ _ _ w) as [[plaintext|e] w'].
Qed.

(** X2. Misshapen envelopes.  When one of [C], [P_e], [N] of the decoded
    value is not a byte sequence, [PrivateKey.decrypt] throws the
    [assertType] error that names the first such field ([undefined] as its
    type when the field is absent), where [decryptMessage] throws its one
    structure error; neither touches the world.  When all three are byte
    sequences the two run the same decryption and differ only in wrapping
    the plaintext in a [Message]. *)
Theorem misshapen_envelope payload decoded priv w :
  cbor_decode payload = Ok decoded ->
  is_nullish decoded = false ->
  (forall k,
      first_bad_field decoded = Some k ->
      (exists label,
          PrivateKey_decrypt priv payload w
          = (Throw (not_Uint8Array_error k label), w)
          /\ (get_prop decoded k = JUndefined -> label = "undefined"))
      /\ decryptMessage payload priv w = (Throw invalid_encrypted_payload, w))
  /\ (first_bad_field decoded = None ->
      PrivateKey_decrypt priv payload w =
        match decryptMessage payload priv w with
        | (Ok plaintext, w') => (Ok (Message_of plaintext), w')
        | (Throw e, w') => (Throw e, w')
        end).
Proof.
  intros Hdec Hnull. split.
  - intros k Hk. unfold first_bad_field in Hk.
    unfold PrivateKey_decrypt, decryptMessage. run_monad. rewrite Hdec.
    rewrite !destructure_run, Hnull. rewrite !assertType_Uint8Array_run.
    destruct (get_prop decoded "C") as [| | | | |C| |] eqn:HC; simpl in *;
      try (injection Hk as <-; split; [eexists; split; [done|] |done];
           rewrite HC; by try discriminate).
    destruct (get_prop decoded "P_e") as [| | | | |P_e| |] eqn:HP; simpl in *;
      try (injection Hk as <-; split; [eexists; split; [done|] |done];
           rewrite HP; by try discriminate).
    destruct (get_prop decoded "N") as [| | | | |N| |] eqn:HN; simpl in *;
      try (injection Hk as <-; split; [eexists; split; [done|] |done];
           rewrite HN; by try discriminate).
    discriminate.
  - intros (C & P_e & N & HC & HP & HN)%first_bad_field_None.
    rewrite (PrivateKey_decrypt_run _ _ _ _ _ _ _ Hdec HC HP HN).
    by rewrite (decryptMessage_run _ _ _ _ _ _ _ Hdec HC HP HN).
Qed.


(** X9. The structure checks of [verifyMessage], in their order.  A
    decoded value whose [sig] is not a byte sequence (any value that is not
    an object among them) is refused as a missing signature, whatever [m]
    and [P] are; then a present [m] that is not a byte sequence, then a
    present [P] that is not a byte sequence, each with its own error, the
    latter also when [m] is absent.  No check looks at the content: the
    world is untouched. *)
Theorem verifyMessage_structure_checks payload decoded expected w :
  cbor_decode payload = Ok decoded ->
  is_nullish decoded = false ->
  (is_bytes (get_prop decoded "sig") = false ->
   verifyMessage payload expected w = (Throw missing_signature, w))
  /\ (is_bytes (get_prop decoded "sig") = true ->
      is_undefined (get_prop decoded "m") = false ->
      is_bytes (get_prop decoded "m") = false ->
      verifyMessage payload expected w = (Throw message_not_bytes, w))
  /\ (is_bytes (get_prop decoded "sig") = true ->
      is_undefined (get_prop decoded "m") = true
        \/ is_bytes (get_prop decoded "m") = true ->
      is_undefined (get_prop decoded "P") = false ->
      is_bytes (get_prop decoded "P") = false ->
      verifyMessage payload expected w = (Throw public_key_not_bytes, w)).
Proof.
  intros Hdec Hnull.
  unfold verifyMessage. run_monad. rewrite Hdec, destructure_run, Hnull.
  repeat split.
  - intros ->. by rewrite orb_true_r.
  - intros Hsig -> ->.
    destruct (get_prop decoded "sig"); try discriminate. done.
  - intros Hsig Hm -> ->.
    destruct (get_prop decoded "sig"); try discriminate. simpl.
    by destruct Hm as [-> | ->]; rewrite ?andb_false_r.
Qed.

(** X16. [verifyMessage] checks the signature against the key the caller
    expects and never against the embedded one: two payloads with the same
    [sig] and [m] whose embedded keys are both accepted (or absent) have
    the same outcome, whatever the bytes of [P]. *)
Theorem embedded_key_is_only_compared
    payload1 payload2 decoded1 decoded2 sig expected w :
  cbor_decode payload1 = Ok decoded1 ->
  cbor_decode payload2 = Ok decoded2 ->
  get_prop decoded1 "sig" = JBytes sig ->
  get_prop decoded2 "sig" = JBytes sig ->
  get_prop decoded1 "m" = get_prop decoded2 "m" ->
  is_undefined (get_prop decoded1 "m") = true
    \/ is_bytes (get_prop decoded1 "m") = true ->
  key_accepted decoded1 expected ->
  key_accepted decoded2 expected ->
  verifyMessage payload1 expected w = verifyMessage payload2 expected w.
Proof.
  intros Hdec1 Hdec2 Hsig1 Hsig2 Hm Hshape Hkey1 Hkey2.
  destruct (get_prop decoded1 "m") as [| | | | |m| |] eqn:Hm1;
    destruct Hshape as [Hs|Hs]; try discriminate.
  - rewrite (verifyMessage_message_missing _ _ _ _ _ Hdec1 Hsig1 Hm1 Hkey1).
    symmetry. by eapply verifyMessage_message_missing.
  - rewrite (verifyMessage_checked _ _ _ _ _ _ Hdec1 Hsig1 Hm1 Hkey1).
    symmetry. by eapply verifyMessage_checked.
Qed.

(** X13. A recipient key that the conversion to the key-agreement form
    rejects makes [eciesEncrypt] fail before anything is drawn: the error is
    the conversion's message behind the prefix of [eciesEncrypt], the random
    source is where it was, and [encryptMessage] and [PublicKey.encrypt]
    pass that error on. *)
Theorem invalid_recipient_draws_nothing x b pub w e :
  plain_bytes x = Some b ->
  edwardsToMontgomeryPub (PublicKey_toBinary pub) = Throw e ->
  let failure := Error ("eciesEncrypt failed: " +:+ error_message e) in
  eciesEncrypt (PublicKey_toBinary pub) b w = (Throw failure, w)
  /\ encryptMessage x pub w = (Throw failure, w)
  /\ PublicKey_encrypt pub x w = (Throw failure, w).
Proof.
  intros Hx He failure.
  assert (eciesEncrypt (PublicKey_toBinary pub) b w = (Throw failure, w))
    as Hecies.
  { unfold eciesEncrypt. run_monad. by rewrite He. }
  split; [done|].
  unfold encryptMessage, PublicKey_encrypt.
  rewrite !(bind_ok _ _ _ _ _ (to_Message_bytes _ _ w Hx)). simpl.
  by rewrite !(bind_throw _ _ _ _ _ Hecies).
Qed.

(** X4. [PublicKey.verify] answers with a boolean for every message
    argument that is a [Message], a string or a [Uint8Array]: [true]
    exactly when [ed25519.verify] returns [true], [false] when it returns
    [false] and when it throws.  For any other argument it throws, from the
    [Message] constructor, before the signature is looked at. *)
Theorem PublicKey_verify_answers pub x signature w :
  (forall b,
      plain_bytes x = Some b ->
      exists valid w',
        PublicKey_verify pub x signature w = (Ok valid, w')
        /\ (valid = true <->
            ed25519_verify (Signature_toBinary signature) b
              (PublicKey_toBinary pub) = Ok true)
        /\ (is_ok (ed25519_verify (Signature_toBinary signature) b
                     (PublicKey_toBinary pub)) = true -> w' = w))
  /\ (plain_bytes x = None ->
      exists label,
        PublicKey_verify pub x signature w
        = (Throw (invalid_message_data label), w)).
Proof.
  split.
  - intros b Hx. unfold PublicKey_verify.
    rewrite (bind_ok _ _ _ _ _ (to_Message_bytes _ _ w Hx)). run_monad.
    destruct (ed25519_verify _ _ _) as [[|]|e]; simpl;
      eexists _, _; (split; [reflexivity|]); split; try done;
      split; try done; discriminate.
  - intros Hx. unfold PublicKey_verify.
    destruct x as [m|v]; [discriminate|].
    destruct v; try discriminate; run_monad; by eexists.
Qed.
End Shapes.

(** ** The methods and the functions together *)

Section Together.
Context `{Primitives}.

Hypothesis ed25519_correct : forall priv pub msg,
  ed25519_getPublicKey priv = Ok pub ->
  exists sig, ed25519_sign msg priv = Ok sig
              /\ ed25519_verify sig msg pub = Ok true.

Hypothesis cbor_round_trip : forall o : gmap string bytes,
  dom o ⊆ wire_fields ->
  exists b, cbor_encode (JObject (JBytes <$> o)) = Ok b
            /\ cbor_decode b = Ok (JObject (JBytes <$> o)).

(** What [signMessage] returns and what it decodes to, with the signature
    named. *)
Lemma signMessage_fields x b priv pub includeMessage includeSenderPublicKey w :
  plain_bytes x = Some b ->
  key_pair priv pub ->
  exists sig payload,
    ed25519_sign b (PrivateKey_toBinary priv) = Ok sig
    /\ ed25519_verify sig b (PublicKey_toBinary pub) = Ok true
    /\ signMessage x priv includeMessage includeSenderPublicKey w
       = (Ok payload, w)
    /\ cbor_decode payload
       = Ok (JObject (JBytes <$>
           signed_fields sig
             (if default false includeMessage then Some b else None)
             (if default false includeSenderPublicKey
              then Some (PublicKey_toBinary pub) else None))).
Proof.
  intros Hx Hpub.
  destruct (ed25519_correct _ _ b Hpub) as (sig & Hsign & Hverify).
  set (fields := signed_fields sig
         (if default false includeMessage then Some b else None)
         (if default false includeSenderPublicKey
          then Some (PublicKey_toBinary pub) else None)).
  destruct (cbor_round_trip fields (signed_fields_wire _ _ _))
    as (payload & Henc & Hdec).
  exists sig, payload. do 2 (split; [done|]). split; [|done].
  unfold signMessage.
  rewrite (bind_ok _ _ _ _ _ (to_Message_bytes _ _ w Hx)). simpl.
  unfold PrivateKey_publicKey. run_monad. rewrite Hsign.
  subst fields. unfold signed_fields in Henc.
  destruct (default false includeMessage),
    (default false includeSenderPublicKey); simpl in *;
    rewrite ?Hpub; simpl;
    rewrite ?fmap_insert, map_fmap_singleton in Henc; by rewrite Henc.
Qed.

(** X8. The signed envelope follows the flags: what [signMessage] returns
    decodes to an object whose [sig] is the Ed25519 signature of the
    message bytes, whose [m] is those bytes exactly when [includeMessage]
    is [true] and whose [P] is the signer's public key exactly when
    [includeSenderPublicKey] is [true]; an omitted flag counts as
    [false]. *)
Theorem signed_envelope_follows_flags
    x b priv pub includeMessage includeSenderPublicKey w :
  plain_bytes x = Some b ->
  key_pair priv pub ->
  exists payload decoded sig,
    signMessage x priv includeMessage includeSenderPublicKey w
    = (Ok payload, w)
    /\ cbor_decode payload = Ok decoded
    /\ ed25519_sign b (PrivateKey_toBinary priv) = Ok sig
    /\ get_prop decoded "sig" = JBytes sig
    /\ get_prop decoded "m"
       = (if default false includeMessage then JBytes b else JUndefined)
    /\ get_prop decoded "P"
       = (if default false includeSenderPublicKey
          then JBytes (PublicKey_toBinary pub) else JUndefined).
Proof.
  intros Hx Hpub.
  destruct (signMessage_fields x b priv pub includeMessage
              includeSenderPublicKey w Hx Hpub)
    as (sig & payload & Hsign & _ & Hrun & Hdec).
  eexists payload, _, sig. split; [done|]. split; [exact Hdec|].
  split; [done|].
  rewrite !get_prop_fmap, signed_fields_sig, signed_fields_m, signed_fields_P.
  by destruct (default false includeMessage),
    (default false includeSenderPublicKey).
Qed.

(** X3. [PrivateKey.sign] returns a signature that [PublicKey.verify] of
    the derived key accepts for the same message, and its bytes are the
    bytes that [signMessage] puts into the field [sig] of its envelope. *)
Theorem detached_signature_verifies x b priv pub w :
  plain_bytes x = Some b ->
  key_pair priv pub ->
  exists signature payload decoded,
    PrivateKey_sign priv x w = (Ok signature, w)
    /\ PublicKey_verify pub x signature w = (Ok true, w)
    /\ signMessage x priv None None w = (Ok payload, w)
    /\ cbor_decode payload = Ok decoded
    /\ get_prop decoded "sig" = JBytes (Signature_toBinary signature).
Proof.
  intros Hx Hpub.
  destruct (signMessage_fields x b priv pub None None w Hx Hpub)
    as (sig & payload & Hsign & Hverify & Hrun & Hdec).
  eexists (Signature_of sig), payload, _.
  split; [|split; [|split; [done|split; [exact Hdec|]]]].
  - unfold PrivateKey_sign.
    rewrite (bind_ok _ _ _ _ _ (to_Message_bytes _ _ w Hx)). run_monad.
    by rewrite Hsign.
  - unfold PublicKey_verify.
    rewrite (bind_ok _ _ _ _ _ (to_Message_bytes _ _ w Hx)). run_monad.
    by rewrite Hverify.
  - by rewrite get_prop_fmap, signed_fields_sig.
Qed.

(** X14. Without the embedded key the signature check is what rejects a
    wrong key: a payload signed with the message and without [P] verifies
    under the signer's public key, and under any key for which
    [ed25519.verify] answers [false] it fails with the invalid-signature
    error, not with key-mismatch. *)
Theorem verification_without_embedded_key x b priv pub w :
  plain_bytes x = Some b ->
  key_pair priv pub ->
  exists payload sig,
    signMessage x priv (Some true) (Some false) w = (Ok payload, w)
    /\ ed25519_sign b (PrivateKey_toBinary priv) = Ok sig
    /\ verifyMessage payload pub w = (Ok (JBytes b), w)
    /\ forall other,
         ed25519_verify sig b (PublicKey_toBinary other) = Ok false ->
         verifyMessage payload other w = (Throw invalid_signature, w).
Proof.
  intros Hx Hpub.
  destruct (signMessage_fields x b priv pub (Some true) (Some false) w Hx Hpub)
    as (sig & payload & Hsign & Hverify & Hrun & Hdec).
  exists payload, sig. do 2 (split; [done|]). simpl in Hdec.
  assert (forall expected,
    verifyMessage payload expected w =
      match ed25519_verify sig b (PublicKey_toBinary expected) with
      | Ok true => (Ok (JBytes b), w)
      | Ok false => (Throw invalid_signature, w)
      | Throw e => (Throw invalid_signature, logged w "Verification error:" e)
      end) as Hcheck.
  { intros expected. apply (verifyMessage_checked _ _ _ _ _ _ Hdec).
    - by rewrite get_prop_fmap, signed_fields_sig.
    - by rewrite get_prop_fmap, signed_fields_m.
    - left. by rewrite get_prop_fmap, signed_fields_P. }
  split.
  - by rewrite Hcheck, Hverify.
  - intros other Hother. by rewrite Hcheck, Hother.
Qed.

Hypothesis montgomery_key_pair : forall priv pub,
  ed25519_getPublicKey priv = Ok pub ->
  exists xpriv xpub,
    edwardsToMontgomeryPriv priv = Ok xpriv
    /\ edwardsToMontgomeryPub pub = Ok xpub
    /\ x25519_getPublicKey xpriv = Ok xpub.

Hypothesis ephemeral_public_key : forall g e g',
  x25519_randomPrivateKey g = (Ok e, g') ->
  exists E, x25519_getPublicKey e = Ok E.

Hypothesis x25519_agreement : forall a A b B,
  x25519_getPublicKey a = Ok A ->
  x25519_getPublicKey b = Ok B ->
  exists ss, x25519_getSharedSecret a B = Ok ss
             /\ x25519_getSharedSecret b A = Ok ss.

Hypothesis hkdf_length : forall ikm salt info n,
  n <= 255 * 32 ->
  exists key, hkdf_sha256 ikm salt info n = Ok key /\ length key = n.

Hypothesis randomBytes_length : forall n g b g',
  randomBytes n g = (Ok b, g') -> length b = n.

Hypothesis siv_correct : forall key nonce,
  length key = 32 ->
  length nonce = 12 ->
  exists aes,
    siv key nonce = Ok aes
    /\ forall msg, exists C,
         cipher_encrypt aes msg = Ok C /\ cipher_decrypt aes C = Ok msg.

Lemma encrypt_round_trip_here x b priv pub w e g1 nonce g2 :
  plain_bytes x = Some b ->
  key_pair priv pub ->
  x25519_randomPrivateKey (entropy w) = (Ok e, g1) ->
  randomBytes 12 g1 = (Ok nonce, g2) ->
  exists payload,
    encryptMessage x pub w = (Ok payload, drawn w g2)
    /\ forall w', decryptMessage payload priv w' = (Ok b, w').
Proof.
  apply (encrypt_round_trip montgomery_key_pair ephemeral_public_key
           x25519_agreement hkdf_length randomBytes_length siv_correct
           cbor_round_trip).
Qed.

(** X1. The methods round-trip and interoperate with the functions:
    [PublicKey.encrypt] returns the very payload [encryptMessage] returns
    in the same world, and both [PrivateKey.decrypt] and [decryptMessage]
    recover the message from it, the method as a [Message], the function as
    bytes. *)
Theorem method_encrypt_decrypt_round_trip x b priv pub w e g1 nonce g2 :
  plain_bytes x = Some b ->
  key_pair priv pub ->
  x25519_randomPrivateKey (entropy w) = (Ok e, g1) ->
  randomBytes 12 g1 = (Ok nonce, g2) ->
  exists payload,
    PublicKey_encrypt pub x w = (Ok payload, drawn w g2)
    /\ encryptMessage x pub w = (Ok payload, drawn w g2)
    /\ forall w',
         PrivateKey_decrypt priv payload w' = (Ok (Message_of b), w')
         /\ decryptMessage payload priv w' = (Ok b, w').
Proof.
  intros Hx Hpub He Hnonce.
  destruct (encrypt_round_trip_here _ _ _ _ _ _ _ _ _ Hx Hpub He Hnonce)
    as (payload & Henc & Hdecrypt).
  exists payload. split; [exact Henc|]. split; [exact Henc|].
  intros w'. split; [|apply Hdecrypt].
  pose proof (Hdecrypt w') as Hrun.
  apply decryptMessage_inv in Hrun
    as (decoded & C & P_e & N & Hdec & HC & HP & HN & Hrun).
  by rewrite (PrivateKey_decrypt_run _ _ _ _ _ _ _ Hdec HC HP HN), Hrun.
Qed.

(** X12. [signAndEncryptMessage] encrypts the output of [signMessage] with
    the message always included: decrypting its payload with the
    recipient's key gives back, byte for byte, what [signMessage] returns
    for the flags [true] and [includeSenderPublicKey] (default [true]). *)
Theorem sign_and_encrypt_wraps_signed_payload
    x b senderPriv senderPub recipPriv recipPub include w e g1 nonce g2 :
  plain_bytes x = Some b ->
  key_pair senderPriv senderPub ->
  key_pair recipPriv recipPub ->
  x25519_randomPrivateKey (entropy w) = (Ok e, g1) ->
  randomBytes 12 g1 = (Ok nonce, g2) ->
  exists signed payload decoded,
    signMessage x senderPriv (Some true) (Some (default true include)) w
    = (Ok signed, w)
    /\ signAndEncryptMessage x senderPriv recipPub include w
       = (Ok payload, drawn w g2)
    /\ (forall w', decryptMessage payload recipPriv w' = (Ok signed, w'))
    /\ cbor_decode signed = Ok decoded
    /\ get_prop decoded "m" = JBytes b.
Proof.
  intros Hx Hsender Hrecip He Hnonce.
  destruct (signMessage_fields x b senderPriv senderPub (Some true)
              (Some (default true include)) w Hx Hsender)
    as (sig & signed & _ & _ & Hsign & Hdec).
  destruct (encrypt_round_trip_here (PlainValue (JBytes signed)) signed
              recipPriv recipPub w e g1 nonce g2 eq_refl Hrecip He Hnonce)
    as (payload & Henc & Hdecrypt).
  eexists signed, payload, _. split; [done|]. split.
  - unfold signAndEncryptMessage. by rewrite (bind_ok _ _ _ _ _ Hsign).
  - split; [done|]. split; [exact Hdec|].
    by rewrite get_prop_fmap, signed_fields_m.
Qed.

(** X11. A wrong expected sender is told apart after decryption: the
    payload of [signAndEncryptMessage] with the sender's key embedded
    decrypts under the recipient's key, and [decryptAndVerifyMessage]
    against a key of another KeyId then raises the key-mismatch error of
    [verifyMessage], unwrapped. *)
Theorem decrypt_and_verify_wrong_sender
    x b senderPriv senderPub recipPriv recipPub other w e g1 nonce g2 :
  plain_bytes x = Some b ->
  key_pair senderPriv senderPub ->
  key_pair recipPriv recipPub ->
  PublicKey_id senderPub <> PublicKey_id other ->
  x25519_randomPrivateKey (entropy w) = (Ok e, g1) ->
  randomBytes 12 g1 = (Ok nonce, g2) ->
  exists payload,
    signAndEncryptMessage x senderPriv recipPub None w
    = (Ok payload, drawn w g2)
    /\ decryptAndVerifyMessage payload recipPriv other (drawn w g2)
       = (Throw key_mismatch, drawn w g2).
Proof.
  intros Hx Hsender Hrecip Hid He Hnonce.
  destruct (signMessage_fields x b senderPriv senderPub (Some true)
              (Some true) w Hx Hsender)
    as (sig & signed & _ & _ & Hsign & Hdec).
  destruct (encrypt_round_trip_here (PlainValue (JBytes signed)) signed
              recipPriv recipPub w e g1 nonce g2 eq_refl Hrecip He Hnonce)
    as (payload & Henc & Hdecrypt).
  exists payload. split.
  - unfold signAndEncryptMessage. simpl. by rewrite (bind_ok _ _ _ _ _ Hsign).
  - unfold decryptAndVerifyMessage.
    rewrite (bind_ok _ _ _ _ _ (Hdecrypt _)). simpl in Hdec.
    apply (verifyMessage_key_mismatch _ _ sig (PublicKey_toBinary senderPub)
             _ _ Hdec).
    + by rewrite get_prop_fmap, signed_fields_sig.
    + right. by rewrite get_prop_fmap, signed_fields_m.
    + by rewrite get_prop_fmap, signed_fields_P.
    + by rewrite PublicKey_id_of.
Qed.
End Together.

(** ** Base64 and text *)

Lemma ToUint8_to_N x : ToUint8 (Byte.to_N x) = x.
Proof.
  unfold ToUint8. pose proof (Byte.to_N_bounded x).
  rewrite N.mod_small by lia. by rewrite Byte.of_to_N.
Qed.

Lemma map_ToUint8_to_N (data : bytes) :
  map ToUint8 (map Byte.to_N data) = data.
Proof.
  induction data as [|x data IH]; [done|].
  simpl. by rewrite ToUint8_to_N, IH.
Qed.

Section Text.
Context `{Primitives} `{Platform}.

Lemma BinaryData_fromBase64_run {A} className (construct : bytes -> A) s w :
  BinaryData_fromBase64 className (fun data => ret (construct data))
    (JString s) w =
    match atob s with
    | Ok binString => (Ok (construct (map ToUint8 binString)), w)
    | Throw e =>
        (Throw (Error ("Failed to decode base64 for " +:+ className +:+ ": "
                       +:+ ("Failed to decode base64 string: "
                            +:+ error_message e))), w)
    end.
Proof.
  unfold BinaryData_fromBase64, base64ToBytes. run_monad.
  by destruct (atob s).
Qed.

(** X5. A key exported as Base64 and imported again is the same key, for
    both key classes, given that [atob] undoes [btoa] on strings of
    character codes up to 255. *)
Theorem base64_key_round_trip :
  (forall l,
      Forall (fun n => (n <= 255)%N) l ->
      exists s, btoa l = Ok s /\ atob s = Ok l) ->
  forall priv pub w,
    (exists s,
        PrivateKey_exportAsBase64 priv w = (Ok s, w)
        /\ PrivateKey_importFromBase64 (JString s) w = (Ok priv, w))
    /\ (exists s,
        PublicKey_exportAsBase64 pub w = (Ok s, w)
        /\ PublicKey_importFromBase64 (JString s) w = (Ok pub, w)).
Proof.
  intros Hbase64 [priv] [pub] w.
  assert (forall data : bytes,
    exists s, btoa (map Byte.to_N data) = Ok s
              /\ atob s = Ok (map Byte.to_N data)) as Hdata.
  { intros data. apply Hbase64. apply Forall_forall.
    intros n (x & -> & _)%list_elem_of_fmap. apply Byte.to_N_bounded. }
  split.
  - destruct (Hdata priv) as (s & Hs & Hback). exists s. split.
    + unfold PrivateKey_exportAsBase64, bytesToBase64. run_monad.
      by rewrite Hs.
    + unfold PrivateKey_importFromBase64.
      by rewrite BinaryData_fromBase64_run, Hback, map_ToUint8_to_N.
  - destruct (Hdata pub) as (s & Hs & Hback). exists s. split.
    + unfold PublicKey_exportAsBase64, bytesToBase64. run_monad.
      by rewrite Hs.
    + unfold PublicKey_importFromBase64.
      by rewrite BinaryData_fromBase64_run, Hback, map_ToUint8_to_N.
Qed.

(** X6. Importing a key from Base64: a value that is not a string is
    refused with the [assertType] error carrying its [typeof]; a string
    that [atob] rejects gives the message of [atob] behind two prefixes,
    the outer one naming the class; and whatever [atob] returns becomes the
    key, of any length, no 32-byte check being made. *)
Theorem base64_import_outcomes w :
  (forall v,
      (forall s, v <> JString s) ->
      let refused :=
        Error ("base64Data [" +:+ js_typeof v
               +:+ "] is not an instance of [string].") in
      PrivateKey_importFromBase64 v w = (Throw refused, w)
      /\ PublicKey_importFromBase64 v w = (Throw refused, w))
  /\ (forall s e,
      atob s = Throw e ->
      let cause := "Failed to decode base64 string: " +:+ error_message e in
      PrivateKey_importFromBase64 (JString s) w
      = (Throw (Error ("Failed to decode base64 for PrivateKey: "
                       +:+ cause)), w)
      /\ PublicKey_importFromBase64 (JString s) w
         = (Throw (Error ("Failed to decode base64 for PublicKey: "
                          +:+ cause)), w))
  /\ (forall s binString,
      atob s = Ok binString ->
      PrivateKey_importFromBase64 (JString s) w
      = (Ok (PrivateKey_of (map ToUint8 binString)), w)
      /\ PublicKey_importFromBase64 (JString s) w
         = (Ok (PublicKey_of (map ToUint8 binString)), w)).
Proof.
  repeat apply conj.
  - intros v Hv refused.
    unfold PrivateKey_importFromBase64, PublicKey_importFromBase64,
      BinaryData_fromBase64.
    destruct v; try done. by destruct (Hv s).
  - intros s e He cause.
    unfold PrivateKey_importFromBase64, PublicKey_importFromBase64.
    by rewrite !BinaryData_fromBase64_run, He.
  - intros s binString Hs.
    unfold PrivateKey_importFromBase64, PublicKey_importFromBase64.
    by rewrite !BinaryData_fromBase64_run, Hs.
Qed.

End Text.

(** ** The platform instance meets its contract; the theorems at work *)

Section MoreInstances.
Import Toy ToyPlatform.

Lemma to_N_ToUint8 n : (n <= 255)%N -> Byte.to_N (ToUint8 n) = n.
Proof.
  intros Hn. unfold ToUint8. rewrite N.mod_small by lia.
  destruct (Byte.of_N n) as [x|] eqn:Hx.
  - by apply Byte.to_of_N.
  - apply Byte.of_N_None_iff in Hx. lia.
Qed.

Lemma toy_base64_round_trip l :
  Forall (fun n => (n <= 255)%N) l ->
  exists s, to_base64 l = Ok s /\ from_base64 s = Ok l.
Proof.
  intros Hl. exists (bytesToHex (map ToUint8 l)). split.
  - unfold to_base64.
    assert (forallb (fun n => (n <=? 255)%N) l = true) as ->; [|done].
    induction Hl as [|n l Hn _ IH]; [done|].
    simpl. rewrite IH. by apply N.leb_le in Hn as ->.
  - unfold from_base64.
    rewrite bytesToHex_lower, bytesToHex_length, Nat.even_even. simpl.
    rewrite unhex_bytesToHex. f_equal.
    induction Hl as [|n l Hn _ IH]; [done|].
    simpl. by rewrite to_N_ToUint8, IH.
Qed.

Lemma misshapen_envelope_witness :
  PrivateKey_decrypt bob misshapen w0
  = (Throw (not_Uint8Array_error "P_e" "undefined"), w0)
  /\ decryptMessage misshapen bob w0 = (Throw invalid_encrypted_payload, w0).
Proof.
  pose proof (misshapen_envelope (H := primitives) misshapen
                (JObject (<["N" := JBytes [x01]]> (<["C" := JBytes [x02]]> ∅)))
                bob w0 eq_refl eq_refl) as [Hbad _].
  destruct (Hbad "P_e" eq_refl) as ((label & Hrun & Hlabel) & Hfunction).
  rewrite (Hlabel eq_refl) in Hrun. by split.
Defined.


Lemma verifyMessage_structure_checks_witness :
  verifyMessage misshapen alice_pub w0 = (Throw missing_signature, w0).
Proof.
  apply (proj1 (verifyMessage_structure_checks (H := primitives) misshapen
                  (JObject (<["N" := JBytes [x01]]>
                              (<["C" := JBytes [x02]]> ∅)))
                  alice_pub w0 eq_refl eq_refl)).
  reflexivity.
Defined.

Lemma embedded_key_is_only_compared_witness :
  verifyMessage keyless alice_pub w0 = verifyMessage signed_full alice_pub w0.
Proof.
  eapply (embedded_key_is_only_compared (H := primitives)).
  - vm_compute. reflexivity.
  - vm_compute. reflexivity.
  - vm_compute. reflexivity.
  - vm_compute. reflexivity.
  - vm_compute. reflexivity.
  - right. vm_compute. reflexivity.
  - left. vm_compute. reflexivity.
  - right. eexists. split; vm_compute; reflexivity.
Defined.

Lemma invalid_recipient_draws_nothing_witness :
  encryptMessage (PlainValue (JBytes secret)) stub_key w0
  = (Throw (Error "eciesEncrypt failed: key of length 32 expected"), w0).
Proof.
  apply (invalid_recipient_draws_nothing (H := primitives)
           (PlainValue (JBytes secret)) secret stub_key w0
           (Error "key of length 32 expected") eq_refl eq_refl).
Defined.

Lemma PublicKey_verify_answers_witness :
  exists valid w',
    PublicKey_verify alice_pub (PlainValue (JString "Hello, World!"))
      (Signature_of [x01]) w0 = (Ok valid, w')
    /\ (valid = true <->
        ed25519_verify [x01] hello (PublicKey_toBinary alice_pub) = Ok true)
    /\ (is_ok (ed25519_verify [x01] hello (PublicKey_toBinary alice_pub))
        = true -> w' = w0).
Proof.
  apply (proj1 (PublicKey_verify_answers (H := primitives) alice_pub
                  (PlainValue (JString "Hello, World!"))
                  (Signature_of [x01]) w0)).
  reflexivity.
Defined.

Lemma signed_envelope_follows_flags_witness :
  exists payload decoded sig,
    signMessage (PlainValue (JBytes hello)) alice (Some true) None w0
    = (Ok payload, w0)
    /\ cbor_decode payload = Ok decoded
    /\ ed25519_sign hello (PrivateKey_toBinary alice) = Ok sig
    /\ get_prop decoded "sig" = JBytes sig
    /\ get_prop decoded "m" = JBytes hello
    /\ get_prop decoded "P" = JUndefined.
Proof.
  apply (signed_envelope_follows_flags (H := primitives) toy_ed25519_correct
           toy_cbor_round_trip (PlainValue (JBytes hello)) hello alice
           alice_pub (Some true) None w0); reflexivity.
Defined.

Lemma detached_signature_verifies_witness :
  exists signature payload decoded,
    PrivateKey_sign alice (PlainValue (JBytes hello)) w0 = (Ok signature, w0)
    /\ PublicKey_verify alice_pub (PlainValue (JBytes hello)) signature w0
       = (Ok true, w0)
    /\ signMessage (PlainValue (JBytes hello)) alice None None w0
       = (Ok payload, w0)
    /\ cbor_decode payload = Ok decoded
    /\ get_prop decoded "sig" = JBytes (Signature_toBinary signature).
Proof.
  apply (detached_signature_verifies (H := primitives) toy_ed25519_correct
           toy_cbor_round_trip (PlainValue (JBytes hello)) hello alice
           alice_pub w0); reflexivity.
Defined.

Lemma verification_without_embedded_key_witness :
  exists payload sig,
    signMessage (PlainValue (JBytes hello)) alice (Some true) (Some false) w0
    = (Ok payload, w0)
    /\ ed25519_sign hello (PrivateKey_toBinary alice) = Ok sig
    /\ verifyMessage payload alice_pub w0 = (Ok (JBytes hello), w0)
    /\ verifyMessage payload bob_pub w0 = (Throw invalid_signature, w0).
Proof.
  destruct (verification_without_embedded_key (H := primitives)
              toy_ed25519_correct toy_cbor_round_trip
              (PlainValue (JBytes hello)) hello alice alice_pub w0
              eq_refl eq_refl)
    as (payload & sig & Hrun & Hsign & Hown & Hother).
  exists payload, sig. do 3 (split; [done|]).
  apply Hother. vm_compute in Hsign. injection Hsign as <-.
  vm_compute. reflexivity.
Defined.

Lemma method_encrypt_decrypt_round_trip_witness :
  exists payload,
    PublicKey_encrypt bob_pub (PlainValue (JString "Secret Message")) w0
    = (Ok payload, w2)
    /\ encryptMessage (PlainValue (JString "Secret Message")) bob_pub w0
       = (Ok payload, w2)
    /\ forall w',
         PrivateKey_decrypt bob payload w' = (Ok (Message_of secret), w')
         /\ decryptMessage payload bob w' = (Ok secret, w').
Proof.
  eapply (method_encrypt_decrypt_round_trip (H := primitives));
    first [toy_contract | reflexivity].
Defined.

Lemma sign_and_encrypt_wraps_signed_payload_witness :
  exists signed payload decoded,
    signMessage (PlainValue (JBytes hello)) alice (Some true) (Some true) w0
    = (Ok signed, w0)
    /\ signAndEncryptMessage (PlainValue (JBytes hello)) alice bob_pub None w0
       = (Ok payload, w2)
    /\ (forall w', decryptMessage payload bob w' = (Ok signed, w'))
    /\ cbor_decode signed = Ok decoded
    /\ get_prop decoded "m" = JBytes hello.
Proof.
  eapply (sign_and_encrypt_wraps_signed_payload (H := primitives)
            toy_ed25519_correct toy_cbor_round_trip toy_montgomery_key_pair
            toy_ephemeral_public_key toy_x25519_agreement toy_hkdf_length
            toy_randomBytes_length toy_siv_correct
            _ _ alice alice_pub bob bob_pub None w0);
    first [toy_contract | reflexivity].
Defined.

Lemma decrypt_and_verify_wrong_sender_witness :
  exists payload,
    signAndEncryptMessage (PlainValue (JBytes hello)) alice bob_pub None w0
    = (Ok payload, w2)
    /\ decryptAndVerifyMessage payload bob bob_pub w2
       = (Throw key_mismatch, w2).
Proof.
  eapply (decrypt_and_verify_wrong_sender (H := primitives)
            toy_ed25519_correct toy_cbor_round_trip toy_montgomery_key_pair
            toy_ephemeral_public_key toy_x25519_agreement toy_hkdf_length
            toy_randomBytes_length toy_siv_correct
            _ _ alice alice_pub bob bob_pub bob_pub w0);
    first [toy_contract | reflexivity | (vm_compute; discriminate)].
Defined.

Lemma base64_key_round_trip_witness :
  exists s,
    PrivateKey_exportAsBase64 alice w0 = (Ok s, w0)
    /\ PrivateKey_importFromBase64 (JString s) w0 = (Ok alice, w0).
Proof.
  apply (base64_key_round_trip (H := primitives) (H0 := platform)
           toy_base64_round_trip alice alice_pub w0).
Defined.

Lemma base64_import_outcomes_witness :
  PrivateKey_importFromBase64 (JNumber 5) w0
  = (Throw (Error "base64Data [number] is not an instance of [string]."), w0)
  /\ PublicKey_importFromBase64 (JString "zz") w0
     = (Throw (Error ("Failed to decode base64 for PublicKey: "
                      +:+ "Failed to decode base64 string: "
                      +:+ "The string to be decoded is not correctly "
                      +:+ "encoded.")),
        w0)
  /\ PublicKey_importFromBase64 (JString "0f") w0
     = (Ok (PublicKey_of [x0f]), w0).
Proof.
  pose proof (base64_import_outcomes (H := primitives) (H0 := platform) w0)
    as (Hvalue & Hreject & Haccept).
  split; [|split].
  - apply (Hvalue (JNumber 5)). discriminate.
  - apply (Hreject "zz"
             (Error "The string to be decoded is not correctly encoded.")).
    reflexivity.
  - apply (Haccept "0f" [15%N]). reflexivity.
Defined.

End MoreInstances.

(** ** Failures before the cipher and before signing *)

Section Failures.
Context `{Primitives}.

(** X17. A decryption that fails before the cipher is asked (the private
    key rejected by the conversion, the ephemeral key rejected by the key
    agreement, the derivation failing, the key or the nonce refused by
    [siv]) throws the message of that failure behind the prefix of
    [eciesDecrypt] and logs nothing, where a rejected ciphertext throws the
    fixed authentication message and leaves a log line. *)
Theorem decrypt_fails_before_the_cipher payload decoded C P_e N priv w :
  cbor_decode payload = Ok decoded ->
  get_prop decoded "C" = JBytes C ->
  get_prop decoded "P_e" = JBytes P_e ->
  get_prop decoded "N" = JBytes N ->
  let failure e := Error ("eciesDecrypt failed: " +:+ error_message e) in
  (forall e,
      edwardsToMontgomeryPriv (PrivateKey_toBinary priv) = Throw e ->
      decryptMessage payload priv w = (Throw (failure e), w))
  /\ (forall xpriv e,
      edwardsToMontgomeryPriv (PrivateKey_toBinary priv) = Ok xpriv ->
      x25519_getSharedSecret xpriv P_e = Throw e ->
      decryptMessage payload priv w = (Throw (failure e), w))
  /\ (forall xpriv ss e,
      edwardsToMontgomeryPriv (PrivateKey_toBinary priv) = Ok xpriv ->
      x25519_getSharedSecret xpriv P_e = Ok ss ->
      hkdf_sha256 ss None aes_key_info 32 = Throw e ->
      decryptMessage payload priv w = (Throw (failure e), w))
  /\ (forall xpriv ss key e,
      edwardsToMontgomeryPriv (PrivateKey_toBinary priv) = Ok xpriv ->
      x25519_getSharedSecret xpriv P_e = Ok ss ->
      hkdf_sha256 ss None aes_key_info 32 = Ok key ->
      siv key N = Throw e ->
      decryptMessage payload priv w = (Throw (failure e), w)).
Proof.
  intros Hdec HC HP HN failure.
  rewrite (decryptMessage_run _ _ _ _ _ _ _ Hdec HC HP HN).
  unfold eciesDecrypt, deriveAesKey. run_monad.
  repeat apply conj.
  - by intros e ->.
  - by intros xpriv e -> ->.
  - by intros xpriv ss e -> -> ->.
  - by intros xpriv ss key e -> -> -> ->.
Qed.

(** X15. Signing fails as its steps fail, without a prefix and without
    touching the world: an argument that is no message fails in the
    [Message] constructor, a private key that [ed25519.sign] rejects fails
    with that error, in [signMessage], in [PrivateKey.sign] and in
    [signAndEncryptMessage], which then draws nothing; a public key that
    cannot be derived fails [signMessage] only when it is to be included. *)
Theorem signing_failures x priv includeMessage includeSenderPublicKey w :
  (plain_bytes x = None ->
   exists e,
     signMessage x priv includeMessage includeSenderPublicKey w = (Throw e, w)
     /\ PrivateKey_sign priv x w = (Throw e, w)
     /\ forall recip include,
          signAndEncryptMessage x priv recip include w = (Throw e, w))
  /\ (forall b e,
      plain_bytes x = Some b ->
      ed25519_sign b (PrivateKey_toBinary priv) = Throw e ->
      signMessage x priv includeMessage includeSenderPublicKey w = (Throw e, w)
      /\ PrivateKey_sign priv x w = (Throw e, w)
      /\ forall recip include,
           signAndEncryptMessage x priv recip include w = (Throw e, w))
  /\ (forall b sig e,
      plain_bytes x = Some b ->
      ed25519_sign b (PrivateKey_toBinary priv) = Ok sig ->
      ed25519_getPublicKey (PrivateKey_toBinary priv) = Throw e ->
      signMessage x priv includeMessage includeSenderPublicKey w
      = (if default false includeSenderPublicKey then (Throw e, w)
         else lift (cbor_encode
                      (JObject
                         (if default false includeMessage
                          then <["m" := JBytes b]> {["sig" := JBytes sig]}
                          else {["sig" := JBytes sig]}))) w)).
Proof.
  repeat apply conj.
  - intros Hx.
    assert (exists e, to_Message x w = (Throw e, w)) as [e He].
    { destruct x as [m|v]; [discriminate|].
      destruct v; try discriminate; run_monad; eauto. }
    assert (forall flagM flagP,
      signMessage x priv flagM flagP w = (Throw e, w)) as Hsign.
    { intros. unfold signMessage. by rewrite (bind_throw _ _ _ _ _ He). }
    exists e. split; [apply Hsign|]. split.
    + unfold PrivateKey_sign. by rewrite (bind_throw _ _ _ _ _ He).
    + intros recip include. unfold signAndEncryptMessage.
      by rewrite (bind_throw _ _ _ _ _ (Hsign _ _)).
  - intros b e Hx He.
    assert (forall flagM flagP,
      signMessage x priv flagM flagP w = (Throw e, w)) as Hsign.
    { intros. unfold signMessage.
      rewrite (bind_ok _ _ _ _ _ (to_Message_bytes _ _ w Hx)).
      run_monad. by rewrite He. }
    split; [apply Hsign|]. split.
    + unfold PrivateKey_sign.
      rewrite (bind_ok _ _ _ _ _ (to_Message_bytes _ _ w Hx)).
      run_monad. by rewrite He.
    + intros recip include. unfold signAndEncryptMessage.
      by rewrite (bind_throw _ _ _ _ _ (Hsign _ _)).
  - intros b sig e Hx Hsig He.
    unfold signMessage, PrivateKey_publicKey.
    rewrite !(bind_ok _ _ _ _ _ (to_Message_bytes _ _ w Hx)).
    run_monad. rewrite Hsig.
    destruct (default false includeSenderPublicKey),
      (default false includeMessage); simpl; rewrite ?He; try done;
      by destruct (cbor_encode _).
Qed.
End Failures.

Section FailureInstances.
Import Toy ToyPlatform.

Lemma decrypt_fails_before_the_cipher_witness :
  decryptMessage short_nonce bob w0
  = (Throw (Error "eciesDecrypt failed: invalid key or nonce length"), w0).
Proof.
  eapply (proj2 (proj2 (proj2
            (decrypt_fails_before_the_cipher (H := primitives) short_nonce
               (ecies_object [x02] (replicate 32 x03) [x01]) [x02]
               (replicate 32 x03) [x01] bob w0
               eq_refl eq_refl eq_refl eq_refl)))
            _ _ _ (Error "invalid key or nonce length"));
    vm_compute; reflexivity.
Defined.

Lemma signing_failures_witness :
  signMessage (PlainValue (JBytes hello)) stub_priv (Some true) (Some true) w0
  = (Throw (Error "private key of length 32 expected"), w0)
  /\ signAndEncryptMessage (PlainValue (JBytes hello)) stub_priv bob_pub None w0
     = (Throw (Error "private key of length 32 expected"), w0).
Proof.
  destruct (proj1 (proj2 (signing_failures (H := primitives)
              (PlainValue (JBytes hello)) stub_priv (Some true) (Some true)
              w0)) hello (Error "private key of length 32 expected")
              eq_refl eq_refl)
    as (Hsign & _ & Hboth).
  split; [exact Hsign | apply Hboth].
Defined.
End FailureInstances.
